(** * KrakenRestMixin: a shallow embedding of
      cryptofeed/exchanges/mixins/kraken_rest.py

    The Python methods are embedded as Rocq functions.  Exceptions are
    values of an error monad, the network and the clock are arguments (the
    reply of the exchange, the reading of [time.time()]), a [dict] is an
    association list in insertion order, [Decimal] is a coefficient with a
    power-of-ten exponent, and timestamps (Python floats) are rationals.

    What the mixin inherits from [RestExchange] and never defines itself
    ([self.id], [self.config], the two symbol tables, [_datetime_normalize],
    [_timestamp], [request_limit]) is the class [RestExchange] below; the
    libraries it imports ([hashlib], [hmac], [base64], [urllib],
    [sortedcontainers]) are the class [PyLib].
    A request is answered by the exchange oracle the function is given.

    This revision of the module reads three names it never binds:
    [request_retry] (not imported) and [retry], [retry_wait] (the parameters
    are called [retry_count], [retry_delay]).  Reading one raises
    [NameError], as in Python: see [global_name]. *)

From Stdlib Require Import ZArith QArith Qround Qpower List String Ascii Bool Lia.
From Stdlib Require Import DecimalString.
Import ListNotations.

Set Implicit Arguments.
Open Scope string_scope.

(** ** Python values, exceptions and the error monad *)

(** The values a JSON field that should hold a symbol code can really hold. *)
Inductive pyval : Type :=
| PyNone
| PyInt (z : Z)
| PyStr (s : string).

(** [str(v)], as an f-string formats a value. *)
Definition py_str (v : pyval) : string :=
  match v with
  | PyNone => "None"
  | PyInt z => NilZero.string_of_int (Z.to_int z)
  | PyStr s => s
  end.

Inductive exn : Type :=
| TypeError
| KeyError (key : string)
| IndexError
| UnboundLocalError (name : string)
| UnsupportedSymbol (sym : string)
| BinasciiError
| HTTPError (status : Z)
| FetchError (url : string) (errors : list string)
| NameError (name : string).

Inductive res (A : Type) : Type :=
| Ok (a : A)
| Raise (e : exn).

Arguments Ok {A} a.
Arguments Raise {A} e.

Definition bind {A B : Type} (m : res A) (k : A -> res B) : res B :=
  match m with
  | Ok a => k a
  | Raise e => Raise e
  end.

Notation "x <- m ;; k" := (bind m (fun x => k))
  (at level 61, m at next level, right associativity).

(** ** Names *)

(** The names the module binds at top level: its imports, [LOG] and the
    class; and the built-in names its functions read. *)
Definition module_names : list string :=
  ["base64"; "hashlib"; "hmac"; "logging"; "time"; "urllib"; "Decimal"; "dt";
   "requests"; "sd"; "json";
   "BALANCES"; "BID"; "ASK"; "BUY"; "CANCELLED"; "CANCEL_ORDER"; "FILLED"; "L2_BOOK";
   "LIMIT"; "MAKER_OR_CANCEL"; "MARKET"; "OPEN"; "ORDERS"; "ORDER_STATUS";
   "PLACE_ORDER"; "SELL"; "TICKER"; "TRADES"; "TRADE_HISTORY";
   "RestExchange"; "LOG"; "KrakenRestMixin"].

Definition builtin_names : list string :=
  ["int"; "float"; "len"; "str"; "list"; "Exception"].

(** Reading a name that is not a local of the function: found in the
    module or among the built-ins, or [NameError]. *)
Definition global_name (name : string) : res unit :=
  if existsb (String.eqb name) (module_names ++ builtin_names) then Ok tt
  else Raise (NameError name).

(** A call that passes the keyword arguments [keywords] to a function whose
    parameters are [params]: an unexpected keyword is a [TypeError]. *)
Definition accepts_keywords (params keywords : list string) : res unit :=
  if forallb (fun k => existsb (String.eqb k) params) keywords then Ok tt
  else Raise TypeError.

(** ** Strings: [len], slices, [replace], [split] *)

(** [s[n:]] *)
Fixpoint str_drop (n : nat) (s : string) : string :=
  match n, s with
  | O, _ => s
  | S _, EmptyString => EmptyString
  | S n', String _ s' => str_drop n' s'
  end.

(** [s[:n]] *)
Fixpoint str_take (n : nat) (s : string) : string :=
  match n, s with
  | O, _ => EmptyString
  | S _, EmptyString => EmptyString
  | S n', String c s' => String c (str_take n' s')
  end.

(** [s[lo:hi]] for literal bounds [0 <= lo <= hi]. *)
Definition str_slice (lo hi : nat) (s : string) : string :=
  str_take (hi - lo) (str_drop lo s).

(** [len(v)]: only a string is sized among [pyval]. *)
Definition py_len (v : pyval) : res nat :=
  match v with
  | PyStr s => Ok (String.length s)
  | _ => Raise TypeError
  end.

(** [v[lo:hi]] and [v[lo:]] on a value. *)
Definition py_slice (lo hi : nat) (v : pyval) : res string :=
  match v with
  | PyStr s => Ok (str_slice lo hi s)
  | _ => Raise TypeError
  end.

Definition py_slice_from (lo : nat) (v : pyval) : res string :=
  match v with
  | PyStr s => Ok (str_drop lo s)
  | _ => Raise TypeError
  end.

(** ** What the mixin inherits *)

Class RestExchange : Type := {
  (** [self.id] *)
  self_id : string;
  (** [self.config.key_id], [self.config.key_secret] *)
  key_id : string;
  key_secret : string;
  (** [self.request_limit], requests per second *)
  request_limit : positive;
  (** the symbol tables of the base class; an unknown symbol raises *)
  exchange_symbol_to_std_symbol : pyval -> res string;
  std_symbol_to_exchange_symbol : string -> res string;
  (** [self._datetime_normalize], to epoch seconds *)
  _datetime_normalize : Q -> Q;
  (** [self._timestamp(t).timestamp()] *)
  _timestamp : Q -> Q
}.

(** ** [_convert_private_sym] *)

Section ConvertPrivateSym.
Context {E : RestExchange}.

(** The body of the [try] block: the new value of [cleansym], or the
    exception that leaves the block. *)
Definition convert_try (sym : pyval) : res pyval :=
  symlen <- py_len sym ;;
  if (symlen =? 8)%nat || (symlen =? 9)%nat then
    a <- py_slice 1 4 sym ;;
    b <- py_slice_from 5 sym ;;
    Ok (PyStr (a ++ b))
  else if (symlen =? 4)%nat then
    a <- py_slice_from 1 sym ;;
    Ok (PyStr a)
  else Ok sym.

(** The message of the [LOG.error] call in the handler. *)
Definition convert_log_message (sym : pyval) : string :=
  "Couldnt convert private api symbol " ++ py_str sym ++ " for " ++ self_id.

(** [_convert_private_sym(sym)]: the value returned and the records written
    to the log.  The handler catches every [Exception], so nothing is
    raised. *)
Definition _convert_private_sym (sym : pyval) : pyval * list string :=
  match convert_try sym with
  | Ok cleansym => (cleansym, [])
  | Raise _ => (sym, [convert_log_message sym])
  end.

End ConvertPrivateSym.

(** ** [dict]: an association list in insertion order *)

Section Dict.
Variables (K V : Type) (eqb : K -> K -> bool).

Definition dict : Type := list (K * V).

(** [d.get(k)] *)
Fixpoint dict_get (k : K) (d : dict) : option V :=
  match d with
  | [] => None
  | (k', v) :: d' => if eqb k k' then Some v else dict_get k d'
  end.

(** [d[k] = v]: a key already present keeps its place, a new one goes last. *)
Fixpoint dict_set (k : K) (v : V) (d : dict) : dict :=
  match d with
  | [] => [(k, v)]
  | (k', v') :: d' => if eqb k k' then (k', v) :: d' else (k', v') :: dict_set k v d'
  end.

End Dict.

(** ** [Decimal] *)

(** A finite [Decimal]: [coeff * 10 ^ expo].  The context precision (28
    significant digits by default) is taken as never exceeded, so the
    arithmetic below is exact. *)
Record decimal : Type := { coeff : Z; expo : Z }.

(** The coefficient of [d] once written with the exponent [e <= expo d]. *)
Definition dec_align (d : decimal) (e : Z) : Z := (coeff d * 10 ^ (expo d - e))%Z.

(** [a - b]: the result carries the smaller exponent. *)
Definition dec_sub (a b : decimal) : decimal :=
  let e := Z.min (expo a) (expo b) in
  {| coeff := dec_align a e - dec_align b e; expo := e |}.

(** [a <= b] and [a == b] *)
Definition dec_leb (a b : decimal) : bool :=
  let e := Z.min (expo a) (expo b) in (dec_align a e <=? dec_align b e)%Z.

Definition dec_eqb (a b : decimal) : bool :=
  let e := Z.min (expo a) (expo b) in (dec_align a e =? dec_align b e)%Z.

(** The number a [Decimal] denotes. *)
Definition dec_value (d : decimal) : Q := inject_Z (coeff d) * (10 # 1) ^ expo d.

(** ** Orders: [_order_status] *)

(** cryptofeed.defines *)
Inductive side : Type := SELL | BUY.
Inductive order_kind : Type := LIMIT | MARKET.
Inductive order_state : Type := CANCELLED | OPEN | FILLED.

(** The order object of the exchange, numeric strings already read as
    [Decimal]. *)
Module Order.
Record descr : Type := {
  pair : string;
  type : string;
  ordertype : string;
  price : decimal
}.
Record t : Type := {
  status : string;
  descr_ : descr;
  vol : decimal;
  vol_exec : decimal;
  opentm : Q
}.
End Order.

(** The dict [_order_status] returns. *)
Module OrderStatus.
Record t : Type := {
  order_id : string;
  symbol : string;
  side_ : side;
  order_type : order_kind;
  price : decimal;
  total : decimal;
  executed : decimal;
  pending : decimal;
  timestamp : Q;
  order_status : order_state
}.
End OrderStatus.

Section OrderStatusDef.
Context {E : RestExchange}.

(** The three unguarded [if]s: [status] stays unbound unless one fires. *)
Definition status_of (s : string) : option order_state :=
  let status := None in
  let status := if s =? "canceled" then Some CANCELLED else status in
  let status := if s =? "open" then Some OPEN else status in
  let status := if s =? "closed" then Some FILLED else status in
  status.

(** Reading the local [status]. *)
Definition read_status (status : option order_state) : res order_state :=
  match status with
  | Some st => Ok st
  | None => Raise (UnboundLocalError "status")
  end.

(** [_order_status(order_id, order)]; the dict display is evaluated entry
    by entry, the symbol lookup first, [status] last. *)
Definition _order_status (order_id : string) (order : Order.t) : res OrderStatus.t :=
  let status := status_of (Order.status order) in
  let d := Order.descr_ order in
  symbol <- exchange_symbol_to_std_symbol (PyStr (Order.pair d)) ;;
  st <- read_status status ;;
  Ok {| OrderStatus.order_id := order_id;
        OrderStatus.symbol := symbol;
        OrderStatus.side_ := if Order.type d =? "sell" then SELL else BUY;
        OrderStatus.order_type := if Order.ordertype d =? "limit" then LIMIT else MARKET;
        OrderStatus.price := Order.price d;
        OrderStatus.total := Order.vol order;
        OrderStatus.executed := Order.vol_exec order;
        OrderStatus.pending := dec_sub (Order.vol order) (Order.vol_exec order);
        OrderStatus.timestamp := Order.opentm order;
        OrderStatus.order_status := st |}.

End OrderStatusDef.

(** ** Requests, replies and signing: [_post_private] *)

(** A value of a request payload. *)
Inductive param : Type :=
| PStr (s : string)
| PInt (z : Z)
| PFloat (q : Q).

Definition payload : Type := dict string param.

(** What [requests.post] is handed. *)
Record request : Type := {
  req_url : string;
  req_data : payload;
  req_headers : dict string string
}.

(** The JSON envelope [{"error": [...], "result": ...}]; either key may be
    missing. *)
Record envelope (R : Type) : Type := {
  error : option (list string);
  result : option R
}.

(** A reply, its body already parsed ([json.loads(r.text, parse_float=Decimal)]). *)
Record response (R : Type) : Type := {
  status_code : Z;
  url : string;
  json : envelope R
}.

(** The libraries the module imports, as far as it uses them. *)
Class PyLib : Type := {
  (** [hashlib.sha256(m).digest()] *)
  sha256 : list Byte.byte -> list Byte.byte;
  (** [hmac.new(key, msg, hashlib.sha512).digest()] *)
  hmac_sha512 : list Byte.byte -> list Byte.byte -> list Byte.byte;
  (** [base64.b64decode], which raises on a malformed secret *)
  b64decode : string -> res (list Byte.byte);
  (** [base64.b64encode] *)
  b64encode : list Byte.byte -> list Byte.byte;
  (** [urllib.parse.urlencode] *)
  urlencode : payload -> string;
  (** [sortedcontainers.SortedDict] built from a dict *)
  SortedDict : Type;
  sd : dict decimal decimal -> SortedDict
}.

(** Modelled from the spec: [_handle_error] of the base class [RestExchange],
    whose code is not among the sources.  "Any other non-200 HTTP status ->
    fatal; surface as an error immediately (no retry)." *)
Definition _handle_error {R : Type} (resp : response R) : res unit :=
  if (status_code resp =? 200)%Z then Ok tt else Raise (HTTPError (status_code resp)).

(** [int(x)] of a float: truncation toward zero. *)
Definition Qtrunc (x : Q) : Z := Z.quot (Qnum x) (Zpos (Qden x)).

(** [str(n)] of an int. *)
Definition str_of_int (n : Z) : string := NilZero.string_of_int (Z.to_int n).

(** [s.encode('utf8')] on the ASCII strings signed here, and [b.decode()]. *)
Definition encode (s : string) : list Byte.byte := list_byte_of_string s.
Definition decode (b : list Byte.byte) : string := string_of_list_byte b.

Definition api : string := "https://api.kraken.com/0".

Section PostPrivate.
Context {E : RestExchange} {L : PyLib}.

(** [int(time.time() * 1000)], [now] being what [time.time()] returned. *)
Definition nonce_of (now : Q) : Z := Qtrunc (now * 1000).

(** [_post_private] up to the call of [requests.post]: the request sent. *)
Definition private_request (command : string) (payload0 : option payload) (now : Q)
  : res request :=
  let payload1 := match payload0 with None => [] | Some p => p end in
  let nonce := nonce_of now in
  let payload2 := dict_set String.eqb "nonce" (PInt nonce) payload1 in
  let urlpath := "/0" ++ command in
  let postdata := urlencode payload2 in
  let encoded := encode (str_of_int nonce ++ postdata) in
  let message := (encode urlpath ++ sha256 encoded)%list in
  key <- b64decode key_secret ;;
  let signature := hmac_sha512 key message in
  let sigdigest := b64encode signature in
  let headers := [("API-Key", key_id); ("API-Sign", decode sigdigest)] in
  Ok {| req_url := api ++ command; req_data := payload2; req_headers := headers |}.

(** [_post_private(command, payload)] against an exchange that answers
    [exchange req]. *)
Definition _post_private {R : Type} (command : string) (payload0 : option payload)
    (now : Q) (exchange : request -> response R) : res (envelope R) :=
  req <- private_request command payload0 now ;;
  let resp := exchange req in
  _ <- _handle_error resp ;;
  Ok (json resp).

End PostPrivate.

(** The signature of a private call in the words of the specification:
    [base64Encode(HMAC-SHA512(base64Decode(secretKey),
       utf8(urlPath) || SHA256(utf8(str(nonce) + urlEncodedPayload))))]. *)
Definition spec_signature {L : PyLib} (secret : list Byte.byte) (urlPath : string)
    (nonce : Z) (urlEncodedPayload : string) : list Byte.byte :=
  b64encode (hmac_sha512 secret
    (encode urlPath ++ sha256 (encode (str_of_int nonce ++ urlEncodedPayload)))%list).

(** ** More strings *)

(** [s.replace(c, '')] for a one-character [c]. *)
Fixpoint str_remove (c : ascii) (s : string) : string :=
  match s with
  | EmptyString => EmptyString
  | String x s' => if Ascii.eqb x c then str_remove c s' else String x (str_remove c s')
  end.

(** [s.split(sep)] for a one-character [sep]. *)
Fixpoint str_split (sep : ascii) (s : string) : list string :=
  match s with
  | EmptyString => [EmptyString]
  | String x s' =>
      if Ascii.eqb x sep then EmptyString :: str_split sep s'
      else match str_split sep s' with
           | [] => [String x EmptyString]
           | h :: t => String x h :: t
           end
  end.

(** [l[i]] *)
Definition py_index {A : Type} (l : list A) (i : nat) : res A :=
  match nth_error l i with
  | Some a => Ok a
  | None => Raise IndexError
  end.

(** Truth value of an optional string and of an optional number. *)
Definition truthy_str (s : option string) : bool :=
  match s with
  | Some (String _ _) => true
  | _ => false
  end.

Definition truthy_num (t : option Q) : bool :=
  match t with
  | Some q => negb (Qeq_bool q 0)
  | None => false
  end.

(** ** The envelope *)

(** [data['error']] and [data['result']] *)
Definition get_error {R : Type} (data : envelope R) : res (list string) :=
  match error data with
  | Some e => Ok e
  | None => Raise (KeyError "error")
  end.

Definition get_result {R : Type} (data : envelope R) : res R :=
  match result data with
  | Some r => Ok r
  | None => Raise (KeyError "result")
  end.

(** What a private operation returns: the envelope itself when it carries
    errors, a value, or [None] when the function falls off its end. *)
Inductive returned (R A : Type) : Type :=
| RetEnvelope (data : envelope R)
| RetValue (a : A)
| RetNone.

Arguments RetEnvelope {R A} data.
Arguments RetValue {R A} a.
Arguments RetNone {R A}.

(** The parameters of [_post_public] after [self]. *)
Definition post_public_params : list string :=
  ["command"; "payload"; "retry_count"; "retry_delay"].

(** [_post_public(command, payload)] against an exchange that answers
    [exchange req].  The decorator line reads [request_retry], [retry] and
    [retry_wait], none of which is a local or a module name; past it, the
    helper posts once. *)
Definition _post_public {R : Type} (command : string) (payload0 : option payload)
    (exchange : request -> response R) : res (envelope R) :=
  let url := api ++ command in
  _ <- global_name "request_retry" ;;
  _ <- global_name "retry" ;;
  _ <- global_name "retry_wait" ;;
  let data := match payload0 with
              | None | Some [] => []
              | Some p => p
              end in
  let resp := exchange {| req_url := url; req_data := data; req_headers := [] |} in
  _ <- _handle_error resp ;;
  Ok (json resp).

(** ** Public operations: [ticker_sync], [l2_book_sync] *)

Module TickerInfo.
Record t : Type := { a : list decimal; b : list decimal }.
End TickerInfo.

Module Ticker.
Record t : Type := { symbol : string; feed : string; bid : decimal; ask : decimal }.
End Ticker.

Module Depth.
(** a level is [[price, volume, timestamp]]; the code reads [u[0]], [u[1]] *)
Record t : Type := { bids : list (decimal * decimal); asks : list (decimal * decimal) }.
End Depth.

Module Book.
Record t {L : PyLib} : Type := { BID : SortedDict; ASK : SortedDict }.
End Book.

Section PublicOps.
Context {E : RestExchange} {L : PyLib}.

Definition ticker_sync (symbol : string)
    (exchange : request -> response (dict string TickerInfo.t))
  : res (option Ticker.t) :=
  sym0 <- std_symbol_to_exchange_symbol symbol ;;
  let sym := str_remove "/" sym0 in
  _ <- global_name "retry" ;;
  _ <- global_name "retry_wait" ;;
  _ <- accepts_keywords post_public_params ["payload"; "retry"; "retry_wait"] ;;
  data <- _post_public "/public/Ticker" (Some [("pair", PStr sym)]) exchange ;;
  data <- get_result data ;;
  match data with
  | [] => Ok None
  | (_, val) :: _ =>
      bid <- py_index (TickerInfo.b val) 0 ;;
      ask <- py_index (TickerInfo.a val) 0 ;;
      Ok (Some {| Ticker.symbol := symbol; Ticker.feed := self_id;
                  Ticker.bid := bid; Ticker.ask := ask |})
  end.

(** [{Decimal(u[0]): Decimal(u[1]) for u in levels}] *)
Definition levels_dict (levels : list (decimal * decimal)) : dict decimal decimal :=
  fold_left (fun acc u => dict_set dec_eqb (fst u) (snd u) acc) levels [].

Definition l2_book_sync (symbol : string)
    (exchange : request -> response (dict string Depth.t))
  : res (option Book.t) :=
  sym0 <- std_symbol_to_exchange_symbol symbol ;;
  let sym := str_remove "/" sym0 in
  _ <- global_name "retry" ;;
  _ <- global_name "retry_wait" ;;
  _ <- accepts_keywords post_public_params ["retry"; "retry_wait"] ;;
  data <- _post_public "/public/Depth" (Some [("pair", PStr sym); ("count", PInt 200)])
            exchange ;;
  data <- get_result data ;;
  match data with
  | [] => Ok None
  | (_, val) :: _ =>
      Ok (Some {| Book.BID := sd (levels_dict (Depth.bids val));
                  Book.ASK := sd (levels_dict (Depth.asks val)) |})
  end.

End PublicOps.

(** ** Private operations *)

Module Balance.
Record t : Type := { available : decimal; total : decimal }.
End Balance.

(** An entry of [result['trades']] of [/private/TradesHistory]. *)
Module PrivTrade.
Record t : Type := {
  ordertxid : string;
  pair : string;
  price : decimal;
  vol : decimal;
  time : Q;
  type : string;
  fee : decimal
}.
End PrivTrade.

Module TradeRecord.
Record t : Type := {
  order_id : string;
  trade_id : string;
  pair : string;
  price : decimal;
  amount : decimal;
  timestamp : Q;
  side_ : side;
  fee_currency : string;
  fee_amount : decimal;
  raw : PrivTrade.t
}.
End TradeRecord.

(** An entry of [result['ledger']] of [/private/Ledgers]. *)
Module Ledger.
Record t : Type := {
  refid : string;
  type : string;
  subtype : string;
  asset : string;
  aclass : string;
  amount : decimal;
  balance : decimal;
  time : Q;
  fee : decimal
}.
End Ledger.

Module LedgerRecord.
Record t : Type := {
  ref_id : string;
  ledger_id : string;
  type : string;
  sub_type : string;
  asset : pyval;
  asset_class : string;
  amount : decimal;
  balance : decimal;
  timestamp : Q;
  fee_currency : pyval;
  fee_amount : decimal;
  raw : Ledger.t
}.
End LedgerRecord.

(** The lookup table of [balances_sync]. *)
Definition cur_map : dict string string :=
  [("XXBT", "BTC"); ("XXDG", "DOGE"); ("XXLM", "XLM"); ("XXMR", "XMR"); ("XXRP", "XRP");
   ("ZUSD", "USD"); ("ZCAD", "CAD"); ("ZGBP", "GBP"); ("ZJPY", "JPY")].

(** [cur_map.get(currency, currency)] *)
Definition cur_map_get (currency : string) : string :=
  match dict_get String.eqb currency cur_map with
  | Some c => c
  | None => currency
  end.

(** A [for] loop whose body may raise, over the items of a dict. *)
Fixpoint for_items {A S : Type} (body : S -> A -> res S) (items : list A) (s : S) : res S :=
  match items with
  | [] => Ok s
  | x :: rest => s' <- body s x ;; for_items body rest s'
  end.

Section PrivateOps.
Context {E : RestExchange} {L : PyLib}.

Definition order_status_sync (order_id : string) (now : Q)
    (exchange : request -> response (dict string Order.t))
  : res (returned (dict string Order.t) OrderStatus.t) :=
  data <- _post_private "/private/QueryOrders" (Some [("txid", PStr order_id)]) now exchange ;;
  err <- get_error data ;;
  if negb (List.length err =? 0)%nat then Ok (RetEnvelope data)
  else
    r <- get_result data ;;
    match r with
    | [] => Ok RetNone
    | (order_id, order) :: _ => st <- _order_status order_id order ;; Ok (RetValue st)
    end.

Definition balances_sync (now : Q) (exchange : request -> response (dict string decimal))
  : res (returned (dict string decimal) (dict string Balance.t)) :=
  data <- _post_private "/private/Balance" None now exchange ;;
  err <- get_error data ;;
  if negb (List.length err =? 0)%nat then Ok (RetEnvelope data)
  else
    r <- get_result data ;;
    Ok (RetValue
          (fold_left
             (fun acc item =>
                dict_set String.eqb (cur_map_get (fst item))
                  {| Balance.available := snd item; Balance.total := snd item |} acc)
             r [])).

(** [params] of [trade_history_sync] and the first two of [ledger_sync]. *)
Definition range_params (start end_ : option Q) : payload :=
  let params := [] in
  let params := if truthy_num start
                then match start with
                     | Some t => dict_set String.eqb "start" (PFloat (_timestamp t)) params
                     | None => params
                     end
                else params in
  let params := if truthy_num end_
                then match end_ with
                     | Some t => dict_set String.eqb "end" (PFloat (_timestamp t)) params
                     | None => params
                     end
                else params in
  params.

(** One turn of the loop of [trade_history_sync]. *)
Definition trade_history_body (symbol : option string)
    (ret : dict string TradeRecord.t) (item : string * PrivTrade.t)
  : res (dict string TradeRecord.t) :=
  let trade_id := fst item in
  let trade := snd item in
  let sym := fst (_convert_private_sym (PyStr (PrivTrade.pair trade))) in
  std_sym <- exchange_symbol_to_std_symbol sym ;;
  skip <- (if truthy_str symbol
           then again <- exchange_symbol_to_std_symbol sym ;;
                Ok (negb (String.eqb again (match symbol with Some s => s | None => "" end)))
           else Ok false) ;;
  if (skip : bool) then Ok ret
  else
    fee_currency <- py_index (str_split "-" (if truthy_str symbol
                                             then match symbol with Some s => s | None => "" end
                                             else std_sym)) 1 ;;
    Ok (dict_set String.eqb trade_id
          {| TradeRecord.order_id := PrivTrade.ordertxid trade;
             TradeRecord.trade_id := trade_id;
             TradeRecord.pair := std_sym;
             TradeRecord.price := PrivTrade.price trade;
             TradeRecord.amount := PrivTrade.vol trade;
             TradeRecord.timestamp := PrivTrade.time trade;
             TradeRecord.side_ := if PrivTrade.type trade =? "sell" then SELL else BUY;
             TradeRecord.fee_currency := fee_currency;
             TradeRecord.fee_amount := PrivTrade.fee trade;
             TradeRecord.raw := trade |} ret).

(** [trade_history_sync]; the reply's [result] is read at its key
    ['trades']. *)
Definition trade_history_sync (symbol : option string) (start end_ : option Q) (now : Q)
    (exchange : request -> response (dict string PrivTrade.t))
  : res (returned (dict string PrivTrade.t) (dict string TradeRecord.t)) :=
  let params := range_params start end_ in
  data <- _post_private "/private/TradesHistory" (Some params) now exchange ;;
  err <- get_error data ;;
  if negb (List.length err =? 0)%nat then Ok (RetEnvelope data)
  else
    trades <- get_result data ;;
    ret <- for_items (trade_history_body symbol) trades [] ;;
    Ok (RetValue ret).

(** One turn of the loop of [ledger_sync]. *)
Definition ledger_body (ret : dict string LedgerRecord.t) (item : string * Ledger.t)
  : dict string LedgerRecord.t :=
  let ledger_id := fst item in
  let ledger := snd item in
  let sym := fst (_convert_private_sym (PyStr (Ledger.asset ledger))) in
  dict_set String.eqb ledger_id
    {| LedgerRecord.ref_id := Ledger.refid ledger;
       LedgerRecord.ledger_id := ledger_id;
       LedgerRecord.type := Ledger.type ledger;
       LedgerRecord.sub_type := Ledger.subtype ledger;
       LedgerRecord.asset := sym;
       LedgerRecord.asset_class := Ledger.aclass ledger;
       LedgerRecord.amount := Ledger.amount ledger;
       LedgerRecord.balance := Ledger.balance ledger;
       LedgerRecord.timestamp := Ledger.time ledger;
       LedgerRecord.fee_currency := sym;
       LedgerRecord.fee_amount := Ledger.fee ledger;
       LedgerRecord.raw := ledger |} ret.

(** The optional string parameters of [ledger_sync]. *)
Definition add_if_truthy (key : string) (v : option string) (params : payload) : payload :=
  if truthy_str v
  then match v with
       | Some s => dict_set String.eqb key (PStr s) params
       | None => params
       end
  else params.

(** [ledger_sync]; the reply's [result] is read at its key ['ledger']. *)
Definition ledger_sync (aclass asset ledger_type : option string) (start end_ : option Q)
    (now : Q) (exchange : request -> response (dict string Ledger.t))
  : res (returned (dict string Ledger.t) (dict string LedgerRecord.t)) :=
  let params := range_params start end_ in
  let params := add_if_truthy "aclass" aclass params in
  let params := add_if_truthy "asset" asset params in
  let params := add_if_truthy "type" ledger_type params in
  data <- _post_private "/private/Ledgers" (Some params) now exchange ;;
  err <- get_error data ;;
  if negb (List.length err =? 0)%nat then Ok (RetEnvelope data)
  else
    ledgers <- get_result data ;;
    Ok (RetValue (fold_left ledger_body ledgers [])).

End PrivateOps.

(** ** Historical trades: [_historical_trades], [trades_sync] *)

(** A raw trade [[price, volume, time, side, type, misc]]. *)
Module RawTrade.
Record t : Type := { price : decimal; volume : decimal; time : Q; side_ : string }.
End RawTrade.

(** The [result] of [/public/Trades]: the trades under its first key (the
    pair) and the continuation marker [int(result['last'])]. *)
Module TradesPage.
Record t : Type := { trades : list RawTrade.t; last : Z }.
End TradesPage.

Module Trade.
Record t : Type := {
  timestamp : Q;
  symbol : string;
  id : option string;
  feed : string;
  side_ : side;
  amount : decimal;
  price : decimal
}.
End Trade.

(** What a generator does between two requests. *)
Inductive event (A : Type) : Type :=
| Sleep (seconds : Q)
| Yield (a : A).

Arguments Sleep {A} seconds.
Arguments Yield {A} a.

(** How a run of a generator stands: exhausted, left by an exception, or
    still in its loop with the cursor shown when the fuel of the model ran
    out. *)
Inductive stop : Type :=
| Finished
| Raised (e : exn)
| Running (cursor : Z).

(** [x < y] and [x <= y] on floats. *)
Definition Qltb (x y : Q) : bool :=
  match (x ?= y)%Q with
  | Lt => true
  | _ => false
  end.

Definition str_list_eqb (x y : list string) : bool :=
  if list_eq_dec string_dec x y then true else false.

Definition rate_limit_signal : list string := ["EAPI:Rate limit exceeded"].

Section HistoricalTrades.
Context {E : RestExchange}.

(** [_trade_normalization(trade, symbol)] *)
Definition _trade_normalization (trade : RawTrade.t) (symbol : string) : Trade.t :=
  {| Trade.timestamp := RawTrade.time trade;
     Trade.symbol := symbol;
     Trade.id := None;
     Trade.feed := self_id;
     Trade.side_ := if RawTrade.side_ trade =? "s" then SELL else BUY;
     Trade.amount := RawTrade.volume trade;
     Trade.price := RawTrade.price trade |}.

(** [q], or one more when the remainder [r] of the division by [den] is
    past the half, or at the half with [q] odd: to nearest, ties to even. *)
Definition round_half_even (q r den : Z) : Z :=
  match (2 * r ?= den)%Z with
  | Lt => q
  | Eq => if Z.even q then q else (q + 1)%Z
  | Gt => (q + 1)%Z
  end.

(** [a / (b * 2 ^ e)] rounded to an integer. *)
Definition scaled_quotient (a b e : Z) : Z :=
  let num := if (0 <=? e)%Z then a else (a * 2 ^ (- e))%Z in
  let den := if (0 <=? e)%Z then (b * 2 ^ e)%Z else b in
  round_half_even (num / den) (num mod den) den.

(** [a / b] of two ints, [0 < a], [0 < b]: the float nearest to the
    quotient, a 53-bit significand times a power of two (the exponent range
    of binary64 is not modelled). *)
Definition true_divide_pos (a b : Z) : Q :=
  let e0 := (Z.log2 a - Z.log2 b - 53)%Z in
  let e := if (2 ^ 53 <=? scaled_quotient a b e0)%Z then (e0 + 1)%Z else e0 in
  let m := scaled_quotient a b e in
  if (0 <=? e)%Z then inject_Z (m * 2 ^ e) else Qmake m (Z.to_pos (2 ^ (- e))).

(** [a / b] of two ints, [0 < b]. *)
Definition true_divide (a b : Z) : Q :=
  match a with
  | Z0 => 0
  | Zpos _ => true_divide_pos a b
  | Zneg _ => - true_divide_pos (- a) b
  end.

(** [int(int(data['result']['last']) / 1_000_000_000)]: the true division
    of two ints, rounded to a float, then truncated. *)
Definition next_cursor (last : Z) : Z := Qtrunc (true_divide last 1000000000).

(** One turn of the [while] loop on the reply [r]: what the generator does,
    and the cursor the next turn starts from or the exception raised. *)
Definition historical_turn (start_date : Z) (r : response TradesPage.t)
  : list (event (envelope TradesPage.t)) * res Z :=
  if ((status_code r =? 504) || (status_code r =? 520))%Z then
    ([Sleep 60], Ok start_date)
  else
    let '(slept, checked) :=
      if negb (status_code r =? 200)%Z then ([], _handle_error r)
      else ([Sleep (1 # request_limit)], Ok tt) in
    match checked with
    | Raise e => (slept, Raise e)
    | Ok _ =>
        let data := json r in
        match error data with
        | Some (e :: es) =>
            if str_list_eqb (e :: es) rate_limit_signal
            then ((slept ++ [Sleep 5])%list, Ok start_date)
            else (slept, Raise (FetchError (url r) (e :: es)))
        | _ =>
            ((slept ++ [Yield data])%list,
             page <- get_result data ;; Ok (next_cursor (TradesPage.last page)))
        end
    end.

(** The URL [helper(start_date)] gets. *)
Definition trades_endpoint (symbol : string) (start_date : Z) : string :=
  api ++ "/public/Trades?pair=" ++ symbol ++ "&since=" ++ str_of_int start_date.

(** The [while start_date < end_date] loop; [exchange n u] is the reply to
    the [n]-th request of the run, sent to the URL [u]. *)
Fixpoint historical_loop (fuel : nat) (exchange : nat -> string -> response TradesPage.t)
    (symbol : string) (end_date : Q) (n : nat) (start_date : Z)
  : list (event (envelope TradesPage.t)) * stop :=
  match fuel with
  | O => ([], Running start_date)
  | S fuel' =>
      if Qltb (inject_Z start_date) end_date then
        let r := exchange n (trades_endpoint symbol start_date) in
        let '(evs, next) := historical_turn start_date r in
        match next with
        | Ok cursor =>
            let '(evs', st) := historical_loop fuel' exchange symbol end_date (S n) cursor in
            ((evs ++ evs')%list, st)
        | Raise e => (evs, Raised e)
        end
      else ([], Finished)
  end.

Definition _historical_trades (fuel : nat) (exchange : nat -> string -> response TradesPage.t)
    (symbol : string) (start_date end_date : Q)
  : list (event (envelope TradesPage.t)) * stop :=
  match std_symbol_to_exchange_symbol symbol with
  | Raise e => ([], Raised e)
  | Ok sym0 =>
      let symbol := str_remove "/" sym0 in
      (* [@request_retry(self.id, retry, retry_wait)]: [retry] and
         [retry_wait] are parameters here, [request_retry] is not bound *)
      match global_name "request_retry" with
      | Raise e => ([], Raised e)
      | Ok _ =>
          let start_date := Qtrunc (_datetime_normalize start_date) in
          let end_date := _datetime_normalize end_date in
          historical_loop fuel exchange symbol end_date 0 start_date
      end
  end.

(** The body of the [for] loop of [trades_sync] on one page. *)
Definition trades_batch (symbol : string) (end_ : Q) (data : envelope TradesPage.t)
  : res (list Trade.t) :=
  page <- get_result data ;;
  let data := map (fun d => _trade_normalization d symbol) (TradesPage.trades page) in
  Ok (filter (fun d => Qle_bool (Trade.timestamp d) end_) data).

(** [trades_sync] consuming what [_historical_trades] does: a sleep passes
    through, a page becomes a batch, and an exception of the loop body ends
    the run. *)
Fixpoint trades_pages (symbol : string) (end_ : Q)
    (evs : list (event (envelope TradesPage.t))) (st : stop)
  : list (event (list Trade.t)) * stop :=
  match evs with
  | [] => ([], st)
  | Sleep s :: rest =>
      let '(out, st') := trades_pages symbol end_ rest st in (Sleep s :: out, st')
  | Yield data :: rest =>
      match trades_batch symbol end_ data with
      | Ok batch =>
          let '(out, st') := trades_pages symbol end_ rest st in (Yield batch :: out, st')
      | Raise e => ([], Raised e)
      end
  end.

(** [trades_sync(symbol, start, end)]; [now] is [dt.now().timestamp()],
    [get] answers the paginated requests and [post] the single one.  The
    generator's body runs at the first [next]: an exception it raises
    before its first [yield] is the whole run. *)
Definition trades_sync (fuel : nat) (symbol : string) (start end_ : option Q) (now : Q)
    (get : nat -> string -> response TradesPage.t)
    (post : request -> response TradesPage.t)
  : list (event (list Trade.t)) * stop :=
  if truthy_num start then
    let start := match start with Some t => t | None => 0 end in
    let end0 := if negb (truthy_num end_) then now
                else match end_ with Some t => t | None => 0 end in
    let end1 := _datetime_normalize end0 in
    (* the arguments of the call: [retry] is not a parameter of
       [trades_sync], [retry_wait] is *)
    match global_name "retry" with
    | Raise e => ([], Raised e)
    | Ok _ =>
        let '(evs, st) := _historical_trades fuel get symbol start end1 in
        trades_pages symbol end1 evs st
    end
  else
    match (sym0 <- std_symbol_to_exchange_symbol symbol ;;
           let sym := str_remove "/" sym0 in
           _ <- global_name "retry" ;;
           _ <- accepts_keywords post_public_params ["retry"; "retry_wait"] ;;
           data <- _post_public "/public/Trades" (Some [("pair", PStr sym)]) post ;;
           page <- get_result data ;;
           Ok (map (fun d => _trade_normalization d symbol) (TradesPage.trades page))) with
    | Ok batch => ([Yield batch], Finished)
    | Raise e => ([], Raised e)
    end.

End HistoricalTrades.

(** ** A concrete exchange and toy libraries, to run the model on *)

Definition kraken_std_symbol (v : pyval) : res string :=
  match v with
  | PyStr s =>
      match dict_get String.eqb s
              [("XBTUSD", "BTC-USD"); ("ETHGBP", "ETH-GBP"); ("XBT/USD", "BTC-USD")] with
      | Some std => Ok std
      | None => Raise (UnsupportedSymbol s)
      end
  | _ => Raise (UnsupportedSymbol (py_str v))
  end.

Definition kraken_exchange_symbol (s : string) : res string :=
  match dict_get String.eqb s [("BTC-USD", "XBT/USD"); ("ETH-GBP", "ETH/GBP")] with
  | Some sym => Ok sym
  | None => Raise (UnsupportedSymbol s)
  end.

Definition kraken : RestExchange :=
  {| self_id := "KRAKEN";
     key_id := "key";
     key_secret := "c2VjcmV0";
     request_limit := 1;
     exchange_symbol_to_std_symbol := kraken_std_symbol;
     std_symbol_to_exchange_symbol := kraken_exchange_symbol;
     _datetime_normalize := fun t => t;
     _timestamp := fun t => t |}.

(** Stand-ins for the hash and encoding functions: they only have to be
    functions. *)
Definition toy_lib : PyLib :=
  {| sha256 := fun m => rev m;
     hmac_sha512 := fun key m => (key ++ m)%list;
     b64decode := fun s => Ok (encode s);
     b64encode := fun b => b;
     urlencode := fun p => String.concat "&" (map fst p);
     SortedDict := dict decimal decimal;
     sd := fun d => d |}.

(** ** Predicates of the statements *)

(** A reply with status 200, an empty error list and an empty result. *)
Definition empty_reply {R : Type} (r : response (dict string R)) : Prop :=
  status_code r = 200%Z /\ error (json r) = Some [] /\ result (json r) = Some [].

(** ** Sample orders, pages and exchanges *)

(** An order of 1.5 units, none executed, and one whose executed volume (2)
    exceeds its volume (1). *)
Definition open_order : Order.t :=
  {| Order.status := "open";
     Order.descr_ := {| Order.pair := "XBTUSD"; Order.type := "buy";
                        Order.ordertype := "limit";
                        Order.price := {| coeff := 30000; expo := 0 |} |};
     Order.vol := {| coeff := 15; expo := -1 |};
     Order.vol_exec := {| coeff := 0; expo := 0 |};
     Order.opentm := 1616663618 # 1 |}.

Definition overfilled_order : Order.t :=
  {| Order.status := "closed";
     Order.descr_ := {| Order.pair := "XBTUSD"; Order.type := "sell";
                        Order.ordertype := "market";
                        Order.price := {| coeff := 0; expo := 0 |} |};
     Order.vol := {| coeff := 1; expo := 0 |};
     Order.vol_exec := {| coeff := 2; expo := 0 |};
     Order.opentm := 1616663618 # 1 |}.

Definition expired_order : Order.t :=
  {| Order.status := "expired";
     Order.descr_ := {| Order.pair := "XBTUSD"; Order.type := "buy";
                        Order.ordertype := "limit";
                        Order.price := {| coeff := 30000; expo := 0 |} |};
     Order.vol := {| coeff := 15; expo := -1 |};
     Order.vol_exec := {| coeff := 0; expo := 0 |};
     Order.opentm := 1616663618 # 1 |}.

Definition open_order_record : OrderStatus.t :=
  {| OrderStatus.order_id := "OB5VMB-B4U2U-DK2WRW";
     OrderStatus.symbol := "BTC-USD";
     OrderStatus.side_ := BUY;
     OrderStatus.order_type := LIMIT;
     OrderStatus.price := {| coeff := 30000; expo := 0 |};
     OrderStatus.total := {| coeff := 15; expo := -1 |};
     OrderStatus.executed := {| coeff := 0; expo := 0 |};
     OrderStatus.pending := {| coeff := 15; expo := -1 |};
     OrderStatus.timestamp := 1616663618 # 1;
     OrderStatus.order_status := OPEN |}.

(** Three raw trades, at 5, 15 and 25 seconds. *)
Definition raw_trade_at (t : Z) : RawTrade.t :=
  {| RawTrade.price := {| coeff := 97600000; expo := -5 |};
     RawTrade.volume := {| coeff := 134379010; expo := -8 |};
     RawTrade.time := inject_Z t;
     RawTrade.side_ := "s" |}.

Definition page_upto (last : Z) : response TradesPage.t :=
  {| status_code := 200;
     url := "https://api.kraken.com/0/public/Trades";
     json := {| error := Some [];
                result := Some {| TradesPage.trades :=
                                    [raw_trade_at 5; raw_trade_at 15; raw_trade_at 25];
                                  TradesPage.last := last |} |} |}.

(** An exchange whose page reaches the end of the window [10, 20], and one
    whose continuation marker stays at the start of it. *)
Definition one_page_exchange (n : nat) (u : string) : response TradesPage.t :=
  page_upto 20000000000.

Definition stuck_exchange (n : nat) (u : string) : response TradesPage.t :=
  page_upto 10999999999.

Definition never_posted (req : request) : response TradesPage.t :=
  {| status_code := 400; url := req_url req; json := {| error := None; result := None |} |}.

(** A run against a gateway that fails once, a rate limit, then a page. *)
Definition scripted_exchange (n : nat) (u : string) : response TradesPage.t :=
  match n with
  | O => {| status_code := 504; url := u; json := {| error := None; result := None |} |}
  | S O => {| status_code := 200; url := u;
              json := {| error := Some rate_limit_signal; result := None |} |}
  | _ => page_upto 20000000000
  end.

(** Replies of the three private batch operations. *)
Definition balance_exchange (req : request) : response (dict string decimal) :=
  {| status_code := 200; url := req_url req;
     json := {| error := Some [];
                result := Some [("XXBT", {| coeff := 15; expo := -1 |});
                                ("XETH", {| coeff := 2; expo := 0 |})] |} |}.

Definition eth_gbp_trade : PrivTrade.t :=
  {| PrivTrade.ordertxid := "OQCLML-BW3P3-BUCMWZ";
     PrivTrade.pair := "XETHZGBP";
     PrivTrade.price := {| coeff := 30010; expo := -1 |};
     PrivTrade.vol := {| coeff := 25; expo := -2 |};
     PrivTrade.time := 1616663618 # 1;
     PrivTrade.type := "sell";
     PrivTrade.fee := {| coeff := 12; expo := -3 |} |}.

Definition history_exchange (req : request) : response (dict string PrivTrade.t) :=
  {| status_code := 200; url := req_url req;
     json := {| error := Some []; result := Some [("THVRQM-33VKH-UCI7BS", eth_gbp_trade)] |} |}.

Definition gbp_deposit : Ledger.t :=
  {| Ledger.refid := "QGBJIZV-4F6SPK-ZCBT5O";
     Ledger.type := "deposit";
     Ledger.subtype := "";
     Ledger.asset := "ZGBP";
     Ledger.aclass := "currency";
     Ledger.amount := {| coeff := 1000; expo := 0 |};
     Ledger.balance := {| coeff := 1000; expo := 0 |};
     Ledger.time := 1616663618 # 1;
     Ledger.fee := {| coeff := 0; expo := 0 |} |}.

Definition ledger_exchange (req : request) : response (dict string Ledger.t) :=
  {| status_code := 200; url := req_url req;
     json := {| error := Some []; result := Some [("L4UESK-KG3EQ-UFO4T5", gbp_deposit)] |} |}.

Definition empty_exchange (R : Type) (req : request) : response (dict string R) :=
  {| status_code := 200; url := req_url req;
     json := {| error := Some []; result := Some [] |} |}.

(** ** [orders_sync], [place_order_sync], [cancel_order_sync] *)

(** What these operations use of the base class besides [RestExchange]: the
    option table behind [normalize_order_options], the status query
    [self.order_status], and [str] of a [Decimal]. *)
Class OrderApi : Type := {
  normalize_order_options : string -> string -> res string;
  StatusReply : Type;
  order_status : string -> res StatusReply;
  str_decimal : decimal -> string
}.

(** A list comprehension whose element expression may raise. *)
Fixpoint map_res {A B : Type} (f : A -> res B) (l : list A) : res (list B) :=
  match l with
  | [] => Ok []
  | x :: rest => y <- f x ;; ys <- map_res f rest ;; Ok (y :: ys)
  end.

(** What [place_order_sync] returns: the envelope, one status, or a list. *)
Inductive placed (R S : Type) : Type :=
| PlacedEnvelope (data : envelope R)
| PlacedOne (s : S)
| PlacedMany (l : list S).

Arguments PlacedEnvelope {R S} data.
Arguments PlacedOne {R S} s.
Arguments PlacedMany {R S} l.

Section OrderOps.
Context {E : RestExchange} {L : PyLib} {O : OrderApi}.

(** The body of the inner loop of [orders_sync]: [ret.append(...)]. *)
Definition orders_append (ret : list OrderStatus.t) (item : string * Order.t)
  : res (list OrderStatus.t) :=
  st <- _order_status (fst item) (snd item) ;; Ok (ret ++ [st])%list.

(** [orders_sync]; the reply's [result] maps a group name (["open"]) to the
    orders of the group. *)
Definition orders_sync (now : Q)
    (exchange : request -> response (dict string (dict string Order.t)))
  : res (returned (dict string (dict string Order.t)) (list OrderStatus.t)) :=
  data <- _post_private "/private/OpenOrders" None now exchange ;;
  err <- get_error data ;;
  if negb (List.length err =? 0)%nat then Ok (RetEnvelope data)
  else
    r <- get_result data ;;
    ret <- for_items (fun ret group => for_items orders_append (snd group) ret) r [] ;;
    Ok (RetValue ret).

(** [parameters] of [place_order_sync]. *)
Definition order_parameters (symbol : string) (side0 : side) (order_type : string)
    (amount : decimal) (price : option decimal) (options : option (list string))
  : res payload :=
  ot <- normalize_order_options self_id order_type ;;
  sym0 <- std_symbol_to_exchange_symbol symbol ;;
  let parameters :=
    [("pair", PStr (str_remove "/" sym0));
     ("type", PStr (match side0 with BUY => "buy" | SELL => "sell" end));
     ("volume", PStr (str_decimal amount));
     ("ordertype", PStr ot)] in
  let parameters :=
    match price with
    | Some p => dict_set String.eqb "price" (PStr (str_decimal p)) parameters
    | None => parameters
    end in
  match options with
  | Some (o :: os) =>
      flags <- map_res (normalize_order_options self_id) (o :: os) ;;
      Ok (dict_set String.eqb "oflags" (PStr (String.concat "," flags)) parameters)
  | _ => Ok parameters
  end.

(** [place_order_sync]; the reply's [result] is read at its key ['txid']. *)
Definition place_order_sync (symbol : string) (side0 : side) (order_type : string)
    (amount : decimal) (price : option decimal) (options : option (list string))
    (now : Q) (exchange : request -> response (list string))
  : res (placed (list string) StatusReply) :=
  parameters <- order_parameters symbol side0 order_type amount price options ;;
  data <- _post_private "/private/AddOrder" (Some parameters) now exchange ;;
  err <- get_error data ;;
  if negb (List.length err =? 0)%nat then Ok (PlacedEnvelope data)
  else
    txid <- get_result data ;;
    if (List.length txid =? 1)%nat then
      tx <- py_index txid 0 ;; st <- order_status tx ;; Ok (PlacedOne st)
    else
      sts <- map_res order_status txid ;; Ok (PlacedMany sts).

Definition cancel_order_sync {R : Type} (order_id : string) (now : Q)
    (exchange : request -> response R) : res (returned R StatusReply) :=
  data <- _post_private "/private/CancelOrder" (Some [("txid", PStr order_id)]) now exchange ;;
  err <- get_error data ;;
  if negb (List.length err =? 0)%nat then Ok (RetEnvelope data)
  else st <- order_status order_id ;; Ok (RetValue st).

End OrderOps.

(** ** More predicates and samples *)

(** A reply with status 200 whose envelope carries errors. *)
Definition error_reply {R : Type} (r : response R) : Prop :=
  status_code r = 200%Z /\ exists e es, error (json r) = Some (e :: es).

(** A reply with status 200 and an empty error list. *)
Definition clean_reply {R : Type} (r : response R) : Prop :=
  status_code r = 200%Z /\ error (json r) = Some [].

(** A toy order API: every option is known under its own name, a status
    query answers with the id asked for. *)
Definition toy_orders : OrderApi :=
  {| normalize_order_options := fun _ option => Ok option;
     StatusReply := string;
     order_status := fun txid => Ok txid;
     str_decimal := fun d => str_of_int (coeff d) ++ "e" ++ str_of_int (expo d) |}.

Definition error_exchange (R : Type) (req : request) : response R :=
  {| status_code := 200; url := req_url req;
     json := {| error := Some ["EGeneral:Invalid arguments"]; result := None |} |}.

Definition keyless_exchange (R : Type) (req : request) : response R :=
  {| status_code := 200; url := req_url req;
     json := {| error := None; result := None |} |}.

(** A library whose [b64decode] rejects every secret. *)
Definition strict_lib : PyLib :=
  {| sha256 := fun m => rev m;
     hmac_sha512 := fun key m => (key ++ m)%list;
     b64decode := fun _ => Raise BinasciiError;
     b64encode := fun b => b;
     urlencode := fun p => String.concat "&" (map fst p);
     SortedDict := dict decimal decimal;
     sd := fun d => d |}.

Definition filed_order_exchange (req : request) : response (dict string Order.t) :=
  {| status_code := 200; url := req_url req;
     json := {| error := Some [];
                result := Some [("OB5VMB-B4U2U-DK2WRW", open_order);
                                ("OQCLML-BW3P3-BUCMWZ", overfilled_order)] |} |}.

Definition open_orders_exchange (req : request)
  : response (dict string (dict string Order.t)) :=
  {| status_code := 200; url := req_url req;
     json := {| error := Some [];
                result := Some [("open", [("OB5VMB-B4U2U-DK2WRW", open_order)]);
                                ("closed", [("OQCLML-BW3P3-BUCMWZ", overfilled_order)])] |} |}.

Definition merged_balance_exchange (req : request) : response (dict string decimal) :=
  {| status_code := 200; url := req_url req;
     json := {| error := Some [];
                result := Some [("XXBT", {| coeff := 15; expo := -1 |});
                                ("ZUSD", {| coeff := 100; expo := 0 |});
                                ("BTC", {| coeff := 2; expo := 0 |})] |} |}.

Definition eth_gbp_record : TradeRecord.t :=
  {| TradeRecord.order_id := "OQCLML-BW3P3-BUCMWZ";
     TradeRecord.trade_id := "THVRQM-33VKH-UCI7BS";
     TradeRecord.pair := "ETH-GBP";
     TradeRecord.price := {| coeff := 30010; expo := -1 |};
     TradeRecord.amount := {| coeff := 25; expo := -2 |};
     TradeRecord.timestamp := 1616663618 # 1;
     TradeRecord.side_ := SELL;
     TradeRecord.fee_currency := "GBP";
     TradeRecord.fee_amount := {| coeff := 12; expo := -3 |};
     TradeRecord.raw := eth_gbp_trade |}.

Definition txid_exchange (req : request) : response (list string) :=
  {| status_code := 200; url := req_url req;
     json := {| error := Some [];
                result := Some ["OUF4EM-FRGI2-MQMWZD"; "OB5VMB-B4U2U-DK2WRW"] |} |}.

(** * Properties *)

(** ** Strings *)

Example str_split_pair : str_split "-" "ETH-GBP" = ["ETH"; "GBP"].
Proof. reflexivity. Qed.

Example str_split_plain : py_index (str_split "-" "ETHGBP") 1 = Raise IndexError.
Proof. reflexivity. Qed.

Example str_remove_slash : str_remove "/" "XBT/USD" = "XBTUSD".
Proof. reflexivity. Qed.

(** ** The private symbol-code transform *)

Lemma str_drop_substring (n : nat) (s : string) :
  str_drop n s = substring n (String.length s - n) s.
Proof.
  revert s; induction n as [|n IH]; intros s.
  - rewrite Nat.sub_0_r. induction s as [|c s IHs]; simpl; [reflexivity|].
    now rewrite <- IHs.
  - destruct s as [|c s]; simpl; [reflexivity|]. apply IH.
Qed.

Lemma str_take_substring (m : nat) (s : string) : str_take m s = substring 0 m s.
Proof.
  revert s; induction m as [|m IH]; intros [|c s]; simpl; try reflexivity.
  now rewrite IH.
Qed.

Lemma str_slice_substring (lo hi : nat) (s : string) :
  str_slice lo hi s = substring lo (hi - lo) s.
Proof.
  unfold str_slice. generalize (hi - lo)%nat as m.
  revert s; induction lo as [|lo IH]; intros s m.
  - apply str_take_substring.
  - destruct s as [|c s]; simpl.
    + now destruct m.
    + apply IH.
Qed.

Section ConvertPrivateSymFacts.
Context {E : RestExchange}.

Lemma convert_try_str (s : string) :
  convert_try (PyStr s) =
  Ok (PyStr (let n := String.length s in
             if ((n =? 8) || (n =? 9))%nat
             then substring 1 3 s ++ substring 5 (n - 5) s
             else if (n =? 4)%nat then substring 1 (n - 1) s else s)).
Proof.
  unfold convert_try, py_len, py_slice, py_slice_from, bind. cbv zeta.
  destruct ((String.length s =? 8)%nat || (String.length s =? 9)%nat).
  - now rewrite str_slice_substring, str_drop_substring.
  - destruct (String.length s =? 4)%nat; [|reflexivity].
    now rewrite str_drop_substring.
Qed.

Lemma convert_not_str (v : pyval) :
  (forall s, v <> PyStr s) ->
  _convert_private_sym v = (v, [convert_log_message v]).
Proof.
  intros H. destruct v as [| z | s]; try reflexivity.
  now destruct (H s).
Qed.

(** C1, as amended.  On a string the transform returns characters [1:4]
    followed by [5:] for a length of 8 or 9, the string without its first
    character for a length of 4, and the string itself for any other
    length; it raises nothing and, on a string, logs nothing.  The log call
    is in the exception handler, which only an input without a length
    reaches. *)
Theorem convert_private_sym_spec (s : string) :
  let n := String.length s in
  let out := _convert_private_sym (PyStr s) in
  (n = 8%nat \/ n = 9%nat ->
     fst out = PyStr (substring 1 3 s ++ substring 5 (n - 5) s)) /\
  (n = 4%nat -> fst out = PyStr (substring 1 3 s)) /\
  (n <> 8%nat -> n <> 9%nat -> n <> 4%nat -> fst out = PyStr s) /\
  snd out = [] /\
  fst (_convert_private_sym (PyStr "XETHZGBP")) = PyStr "ETHGBP" /\
  fst (_convert_private_sym (PyStr "XETH")) = PyStr "ETH" /\
  fst (_convert_private_sym (PyStr "ZGBP")) = PyStr "GBP" /\
  (n = 5%nat -> out = (PyStr s, [])) /\
  _convert_private_sym PyNone = (PyNone, [convert_log_message PyNone]).
Proof.
  cbv zeta. unfold _convert_private_sym. rewrite convert_try_str. cbv zeta. simpl fst; simpl snd.
  repeat split; try reflexivity.
  - intros [H | H]; rewrite H; reflexivity.
  - intros H; rewrite H; reflexivity.
  - intros H8 H9 H4.
    apply Nat.eqb_neq in H8, H9, H4. now rewrite H8, H9, H4.
  - intros H; rewrite H; reflexivity.
Qed.

End ConvertPrivateSymFacts.

(** C1, the claim as stated fails: a 5-character code comes back unchanged
    and nothing is written to the log. *)
Lemma convert_private_sym_logs_nothing :
  @_convert_private_sym kraken (PyStr "XBTCZ") = (PyStr "XBTCZ", []) /\
  ~ (exists msg, In msg (snd (@_convert_private_sym kraken (PyStr "XBTCZ")))).
Proof.
  split; [reflexivity|]. intros [msg H]. exact H.
Qed.

(** ** Decimals *)

Lemma dec_align_value (d : decimal) (e : Z) :
  (e <= expo d)%Z ->
  inject_Z (dec_align d e) * (10 # 1) ^ e == dec_value d.
Proof.
  intros He. unfold dec_align, dec_value.
  rewrite inject_Z_mult, Zpower_Qpower by lia.
  change (inject_Z 10) with (10 # 1).
  rewrite <- Qmult_assoc, <- Qpower_plus by discriminate.
  now replace (expo d - e + e)%Z with (expo d) by lia.
Qed.

Lemma dec_sub_value (a b : decimal) :
  dec_value (dec_sub a b) == dec_value a - dec_value b.
Proof.
  rewrite <- (@dec_align_value a (Z.min (expo a) (expo b))) by lia.
  rewrite <- (@dec_align_value b (Z.min (expo a) (expo b))) by lia.
  unfold dec_sub, dec_value; cbn [coeff expo].
  unfold Z.sub. rewrite inject_Z_plus, inject_Z_opp. ring.
Qed.

Lemma dec_leb_value (a b : decimal) :
  dec_leb a b = true <-> dec_value a <= dec_value b.
Proof.
  set (e := Z.min (expo a) (expo b)).
  assert (Hp : 0 < (10 # 1) ^ e) by (apply Qpower_0_lt; reflexivity).
  rewrite <- (@dec_align_value a e), <- (@dec_align_value b e) by (subst e; lia).
  unfold dec_leb; fold e. rewrite Z.leb_le, Zle_Qle.
  split; intros H.
  - apply Qmult_le_compat_r; [exact H | now apply Qlt_le_weak].
  - apply Qmult_le_r in H; assumption.
Qed.

(** ** Order status *)

Section OrderStatusFacts.
Context {E : RestExchange}.

Lemma status_of_cases (s : string) :
  (s = "canceled" /\ status_of s = Some CANCELLED) \/
  (s = "open" /\ status_of s = Some OPEN) \/
  (s = "closed" /\ status_of s = Some FILLED) \/
  (s <> "canceled" /\ s <> "open" /\ s <> "closed" /\ status_of s = None).
Proof.
  unfold status_of.
  destruct (String.eqb_spec s "closed") as [-> | Hc]; [now right; right; left|].
  destruct (String.eqb_spec s "open") as [-> | Ho]; [now right; left|].
  destruct (String.eqb_spec s "canceled") as [-> | Hx]; [now left|].
  now right; right; right.
Qed.

Lemma order_status_inv (order_id : string) (order : Order.t) (r : OrderStatus.t) :
  _order_status order_id order = Ok r ->
  status_of (Order.status order) = Some (OrderStatus.order_status r) /\
  OrderStatus.total r = Order.vol order /\
  OrderStatus.executed r = Order.vol_exec order /\
  OrderStatus.pending r = dec_sub (Order.vol order) (Order.vol_exec order).
Proof.
  unfold _order_status, bind, read_status.
  destruct (exchange_symbol_to_std_symbol _); [|discriminate].
  destruct (status_of (Order.status order)); [|discriminate].
  intros H; injection H as <-. now cbn.
Qed.

(** C5, as amended.  In every record [_order_status] produces, [pending] is
    [total - executed], as decimals and as numbers; it is non-negative
    exactly when [executed <= total], which the code does not check. *)
Theorem order_status_pending (order_id : string) (order : Order.t) (r : OrderStatus.t) :
  _order_status order_id order = Ok r ->
  OrderStatus.pending r = dec_sub (OrderStatus.total r) (OrderStatus.executed r) /\
  dec_value (OrderStatus.pending r)
    == dec_value (OrderStatus.total r) - dec_value (OrderStatus.executed r) /\
  (0 <= dec_value (OrderStatus.pending r)
     <-> dec_leb (OrderStatus.executed r) (OrderStatus.total r) = true).
Proof.
  intros H. apply order_status_inv in H as (_ & Ht & He & Hp).
  rewrite Hp, Ht, He. split; [reflexivity|]. split; [apply dec_sub_value|].
  rewrite dec_sub_value, dec_leb_value. split; intros H.
  - apply Qle_minus_iff. exact H.
  - apply Qle_minus_iff in H. exact H.
Qed.

(** C6.  ["canceled"], ["open"] and ["closed"] map to [CANCELLED], [OPEN] and
    [FILLED]; for any other status string no record is produced: reading
    the unbound local [status] raises [UnboundLocalError] (or the symbol
    lookup has raised before it). *)
Theorem order_status_mapping (order_id : string) (order : Order.t) :
  let s := Order.status order in
  let known := s = "canceled" \/ s = "open" \/ s = "closed" in
  status_of "canceled" = Some CANCELLED /\
  status_of "open" = Some OPEN /\
  status_of "closed" = Some FILLED /\
  (forall r, _order_status order_id order = Ok r ->
     (s = "canceled" /\ OrderStatus.order_status r = CANCELLED) \/
     (s = "open" /\ OrderStatus.order_status r = OPEN) \/
     (s = "closed" /\ OrderStatus.order_status r = FILLED)) /\
  (forall sym, exchange_symbol_to_std_symbol (PyStr (Order.pair (Order.descr_ order))) = Ok sym ->
     (known -> exists r, _order_status order_id order = Ok r /\
                         Some (OrderStatus.order_status r) = status_of s) /\
     (~ known -> _order_status order_id order = Raise (UnboundLocalError "status"))) /\
  (~ known -> exists e, _order_status order_id order = Raise e).
Proof.
  cbv zeta. repeat split; try reflexivity.
  - intros r H. apply order_status_inv in H as (H & _).
    destruct (status_of_cases (Order.status order))
      as [[Hs Hv] | [[Hs Hv] | [[Hs Hv] | (_ & _ & _ & Hv)]]];
      rewrite Hv in H; try discriminate; injection H as <-; tauto.
  - intros Hk. unfold _order_status, bind. rewrite H.
    destruct (status_of_cases (Order.status order))
      as [[Hs Hv] | [[Hs Hv] | [[Hs Hv] | (H1 & H2 & H3 & Hv)]]];
      try (rewrite Hv; cbn; eexists; split; reflexivity).
    tauto.
  - intros Hk. unfold _order_status, bind. rewrite H.
    destruct (status_of_cases (Order.status order))
      as [[Hs Hv] | [[Hs Hv] | [[Hs Hv] | (H1 & H2 & H3 & Hv)]]]; try tauto.
    now rewrite Hv.
  - intros Hk. unfold _order_status, bind.
    destruct (exchange_symbol_to_std_symbol _) as [sym | e]; [|now exists e].
    destruct (status_of_cases (Order.status order))
      as [[Hs Hv] | [[Hs Hv] | [[Hs Hv] | (H1 & H2 & H3 & Hv)]]]; try tauto.
    rewrite Hv. now eexists.
Qed.

End OrderStatusFacts.

Lemma order_status_pending_witness :
  @_order_status kraken "OB5VMB-B4U2U-DK2WRW" open_order = Ok open_order_record /\
  OrderStatus.pending open_order_record
    = dec_sub (OrderStatus.total open_order_record) (OrderStatus.executed open_order_record) /\
  dec_value (OrderStatus.pending open_order_record)
    == dec_value (OrderStatus.total open_order_record)
       - dec_value (OrderStatus.executed open_order_record) /\
  (0 <= dec_value (OrderStatus.pending open_order_record)
     <-> dec_leb (OrderStatus.executed open_order_record)
                 (OrderStatus.total open_order_record) = true).
Proof.
  split; [reflexivity|].
  apply (@order_status_pending kraken "OB5VMB-B4U2U-DK2WRW" open_order open_order_record).
  reflexivity.
Defined.

(** C5, the claim as stated fails: an order whose executed volume exceeds
    its volume is normalized into a record with a negative [pending]. *)
Lemma order_status_pending_negative :
  exists r, @_order_status kraken "OQCLML-BW3P3-BUCMWZ" overfilled_order = Ok r /\
            OrderStatus.pending r = {| coeff := -1; expo := 0 |} /\
            dec_value (OrderStatus.pending r) < 0.
Proof.
  eexists. split; [reflexivity|]. split; reflexivity.
Qed.

Example order_status_expired :
  @_order_status kraken "OB5VMB-B4U2U-DK2WRW" expired_order
  = Raise (UnboundLocalError "status").
Proof. reflexivity. Qed.

(** ** Signing *)

Lemma dict_get_set_same (V : Type) (k : string) (v : V) (d : dict string V) :
  dict_get String.eqb k (dict_set String.eqb k v d) = Some v.
Proof.
  induction d as [|[k' v'] d IH]; simpl.
  - now rewrite String.eqb_refl.
  - destruct (String.eqb k k') eqn:Hk; simpl; rewrite Hk; [reflexivity | exact IH].
Qed.

Lemma Qtrunc_floor (x : Q) : 0 <= x -> Qtrunc x = Qfloor x.
Proof.
  destruct x as [n d]. unfold Qle, Qtrunc, Qfloor; simpl. intros H.
  apply Z.quot_div_nonneg; lia.
Qed.

Section SigningFacts.
Context {E : RestExchange} {L : PyLib}.

(** C7.  The request of a private call carries the nonce
    [int(time.time() * 1000)] in its payload, and its [API-Sign] header is
    the base64 text of HMAC-SHA512, keyed with the decoded secret, over
    [utf8(urlPath) || SHA256(utf8(str(nonce) + urlencode(payload)))];
    [_post_private] sends exactly that request. *)
Theorem private_request_signature (command : string) (payload0 : option payload) (now : Q) :
  let nonce := nonce_of now in
  let sent := dict_set String.eqb "nonce" (PInt nonce)
                (match payload0 with Some p => p | None => [] end) in
  private_request command payload0 now =
    (secret <- b64decode key_secret ;;
     Ok {| req_url := api ++ command;
           req_data := sent;
           req_headers :=
             [("API-Key", key_id);
              ("API-Sign",
               decode (spec_signature secret ("/0" ++ command) nonce (urlencode sent)))] |}) /\
  dict_get String.eqb "nonce" sent = Some (PInt nonce) /\
  nonce = ((Qnum now * 1000) ÷ Zpos (Qden now))%Z /\
  (forall (R : Type) (exchange : request -> response R),
     _post_private command payload0 now exchange =
       (req <- private_request command payload0 now ;;
        if (status_code (exchange req) =? 200)%Z then Ok (json (exchange req))
        else Raise (HTTPError (status_code (exchange req))))).
Proof.
  cbv zeta. split; [|split; [|split]].
  - unfold private_request, spec_signature. destruct payload0; reflexivity.
  - apply dict_get_set_same.
  - unfold nonce_of, Qtrunc. destruct now as [n d]; simpl.
    now rewrite Pos.mul_1_r.
  - intros R exchange. unfold _post_private, _handle_error, bind.
    destruct (private_request command payload0 now) as [req|e]; [|reflexivity].
    now destruct (status_code (exchange req) =? 200)%Z.
Qed.


End SigningFacts.

Example private_request_run :
  @private_request kraken toy_lib "/private/Balance" None (16166636183661 # 10000)
  = Ok {| req_url := "https://api.kraken.com/0/private/Balance";
          req_data := [("nonce", PInt 1616663618366)];
          req_headers :=
            [("API-Key", "key");
             ("API-Sign", "c2VjcmV0/0/private/Balanceecnon6638163666161")] |}.
Proof. reflexivity. Qed.



(** ** The names the public operations read *)

Example unbound_names :
  global_name "retry" = Raise (NameError "retry") /\
  global_name "retry_wait" = Raise (NameError "retry_wait") /\
  global_name "request_retry" = Raise (NameError "request_retry") /\
  global_name "requests" = Ok tt /\
  accepts_keywords post_public_params ["retry"; "retry_wait"] = Raise TypeError.
Proof. repeat split. Qed.

Example next_cursor_rounds :
  next_cursor 1616663618999999999 = 1616663619%Z /\
  next_cursor 1616663618366135439 = 1616663618%Z /\
  next_cursor 10999999999 = 10%Z /\
  next_cursor 20000000000 = 20%Z.
Proof. repeat split; vm_compute; reflexivity. Qed.

Section UnboundNames.
Context {E : RestExchange} {L : PyLib}.

Lemma post_public_unbound (R : Type) (command : string) (payload0 : option payload)
    (exchange : request -> response R) :
  _post_public command payload0 exchange = Raise (NameError "request_retry").
Proof. reflexivity. Qed.

Lemma historical_trades_unbound (fuel : nat)
    (exchange : nat -> string -> response TradesPage.t) (symbol : string)
    (start_date end_date : Q) :
  _historical_trades fuel exchange symbol start_date end_date
  = ([], Raised (match std_symbol_to_exchange_symbol symbol with
                 | Ok _ => NameError "request_retry"
                 | Raise e => e
                 end)).
Proof.
  unfold _historical_trades. now destruct (std_symbol_to_exchange_symbol symbol).
Qed.

Lemma trades_sync_unbound (fuel : nat) (symbol : string) (start end_ : option Q) (now : Q)
    (get : nat -> string -> response TradesPage.t)
    (post : request -> response TradesPage.t) :
  trades_sync fuel symbol start end_ now get post
  = ([], Raised (if truthy_num start then NameError "retry"
                 else match std_symbol_to_exchange_symbol symbol with
                      | Ok _ => NameError "retry"
                      | Raise e => e
                      end)).
Proof.
  unfold trades_sync. destruct (truthy_num start); [reflexivity|].
  now destruct (std_symbol_to_exchange_symbol symbol).
Qed.




(** C10, the code at the claim's failing input.  [ticker_sync] and
    [l2_book_sync] return nothing, whatever the exchange would answer: once
    the symbol is looked up, the call of [_post_public] reads [retry], which
    is not bound, and raises [NameError] ([_post_public] itself would raise
    on [request_retry]).  [order_status_sync], which goes through
    [_post_private], does return [None] on a successful envelope with an
    empty result. *)
Theorem ticker_and_book_raise_name_error (symbol : string)
    (ticker_exchange : request -> response (dict string TickerInfo.t))
    (depth_exchange : request -> response (dict string Depth.t)) :
  ticker_sync symbol ticker_exchange
    = Raise (match std_symbol_to_exchange_symbol symbol with
             | Ok _ => NameError "retry"
             | Raise e => e
             end) /\
  l2_book_sync symbol depth_exchange
    = Raise (match std_symbol_to_exchange_symbol symbol with
             | Ok _ => NameError "retry"
             | Raise e => e
             end) /\
  @ticker_sync kraken "BTC-USD" (@empty_exchange TickerInfo.t) = Raise (NameError "retry") /\
  @l2_book_sync kraken toy_lib "BTC-USD" (@empty_exchange Depth.t)
    = Raise (NameError "retry") /\
  (forall (order_id : string) (now : Q)
          (orders_exchange : request -> response (dict string Order.t)),
     (exists key, b64decode key_secret = Ok key) ->
     (forall req, empty_reply (orders_exchange req)) ->
     order_status_sync order_id now orders_exchange = Ok RetNone) /\
  @order_status_sync kraken toy_lib "OB5VMB-B4U2U-DK2WRW" 1616663700
    (@empty_exchange Order.t) = Ok RetNone.
Proof.
  split; [|split; [|split; [|split; [|split]]]]; try reflexivity.
  - unfold ticker_sync, bind. now destruct (std_symbol_to_exchange_symbol symbol).
  - unfold l2_book_sync, bind. now destruct (std_symbol_to_exchange_symbol symbol).
  - intros order_id now orders_exchange [key Hkey] Ho.
    unfold order_status_sync, _post_private, private_request, _handle_error,
      get_error, get_result, bind. rewrite Hkey.
    match goal with |- context [orders_exchange ?r] => destruct (Ho r) as (Hs & He & Hr) end.
    rewrite Hs. change (200 =? 200)%Z with true. cbv iota. now rewrite He, Hr.
Qed.

End UnboundNames.

(** ** Symbol codes in the private operations *)

Lemma dict_set_in (V : Type) (k k' : string) (v v' : V) (d : dict string V) :
  In (k, v) (dict_set String.eqb k' v' d) -> (k = k' /\ v = v') \/ In (k, v) d.
Proof.
  induction d as [|[k0 v0] d IH]; simpl.
  - intros [H | []]. injection H as <- <-. now left.
  - destruct (String.eqb_spec k' k0) as [-> | Hne]; simpl.
    + intros [H | H]; [injection H as <- <-; now left | now right; right].
    + intros [H | H]; [now right; left|].
      destruct (IH H) as [Hl | Hr]; [now left | now right; right].
Qed.

Lemma fold_left_invariant (A S : Type) (I : S -> Prop) (f : S -> A -> S)
    (items : list A) (s : S) :
  I s -> (forall s x, In x items -> I s -> I (f s x)) -> I (fold_left f items s).
Proof.
  revert s. induction items as [|x items IH]; intros s Hs Hf; simpl; [exact Hs|].
  apply IH.
  - apply Hf; [now left | exact Hs].
  - intros s' y Hy. apply Hf. now right.
Qed.

Lemma for_items_invariant (A S : Type) (I : S -> Prop) (body : S -> A -> res S)
    (items : list A) (s s' : S) :
  I s -> (forall s x s', In x items -> I s -> body s x = Ok s' -> I s') ->
  for_items body items s = Ok s' -> I s'.
Proof.
  revert s. induction items as [|x items IH]; intros s Hs Hb; simpl.
  - intros H; injection H as <-. exact Hs.
  - unfold bind. destruct (body s x) as [s1|e] eqn:Hx; [|discriminate].
    apply IH.
    + eapply Hb; [now left | exact Hs | exact Hx].
    + intros s2 y s3 Hy. apply Hb. now right.
Qed.

Section PrivateFacts.
Context {E : RestExchange} {L : PyLib}.

Lemma post_private_inv (R : Type) (command : string) (payload0 : option payload) (now : Q)
    (exchange : request -> response R) (data : envelope R) :
  _post_private command payload0 now exchange = Ok data ->
  exists req, private_request command payload0 now = Ok req /\
              status_code (exchange req) = 200%Z /\ data = json (exchange req).
Proof.
  unfold _post_private, _handle_error, bind.
  destruct (private_request command payload0 now) as [req|e]; [|discriminate].
  destruct (Z.eqb_spec (status_code (exchange req)) 200) as [Hs|Hs]; [|discriminate].
  intros H; injection H as <-. now exists req.
Qed.

(** What a private operation goes through before it reads the result. *)
Lemma private_result_inv (R A : Type) (data : envelope R) (k : R -> res (returned R A))
    (a : A) :
  (err <- get_error data ;;
   if negb (List.length err =? 0)%nat then Ok (RetEnvelope data)
   else r <- get_result data ;; k r) = Ok (RetValue a) ->
  exists r, result data = Some r /\ k r = Ok (RetValue a).
Proof.
  unfold get_error, get_result, bind.
  destruct (error data) as [err|]; [|discriminate].
  destruct (negb (List.length err =? 0)%nat); [discriminate|].
  destruct (result data) as [r|]; [|discriminate].
  intros H. now exists r.
Qed.

Lemma trade_history_body_pair (symbol : option string) (all : dict string PrivTrade.t)
    (ret ret' : dict string TradeRecord.t) (item : string * PrivTrade.t) :
  let good (d : dict string TradeRecord.t) :=
    forall tid rec, In (tid, rec) d ->
      In (tid, TradeRecord.raw rec) all /\
      exchange_symbol_to_std_symbol
        (fst (_convert_private_sym (PyStr (PrivTrade.pair (TradeRecord.raw rec)))))
      = Ok (TradeRecord.pair rec) in
  In item all -> good ret -> trade_history_body symbol ret item = Ok ret' -> good ret'.
Proof.
  cbv zeta. intros Hin Hgood. unfold trade_history_body, bind.
  destruct item as [trade_id trade]; cbn [fst snd].
  destruct (exchange_symbol_to_std_symbol _) as [std_sym|e] eqn:Hstd; [|discriminate].
  destruct (truthy_str symbol).
  - destruct (negb _).
    + intros H; injection H as <-. exact Hgood.
    + destruct (py_index _ 1) as [fc|e]; [|discriminate].
      intros H; injection H as <-. intros tid rec Hrec.
      apply dict_set_in in Hrec as [[-> ->] | Hrec]; [|now apply Hgood].
      cbn. split; assumption.
  - destruct (py_index _ 1) as [fc|e]; [|discriminate].
    intros H; injection H as <-. intros tid rec Hrec.
    apply dict_set_in in Hrec as [[-> ->] | Hrec]; [|now apply Hgood].
    cbn. split; assumption.
Qed.

(** C9, as amended.  [trade_history_sync] passes the pair of every trade it
    reports through the private symbol-code transform (and then through the
    symbol table), [ledger_sync] passes the asset of every ledger entry
    through it; [balances_sync] does not call it: its currency codes go
    through the lookup table [cur_map], unknown codes unchanged. *)
Theorem private_symbol_codes :
  (forall symbol start end_ now exchange ret,
     trade_history_sync symbol start end_ now exchange = Ok (RetValue ret) ->
     exists req trades,
       result (json (exchange req)) = Some trades /\
       forall tid rec, In (tid, rec) ret ->
         In (tid, TradeRecord.raw rec) trades /\
         exchange_symbol_to_std_symbol
           (fst (_convert_private_sym (PyStr (PrivTrade.pair (TradeRecord.raw rec)))))
         = Ok (TradeRecord.pair rec)) /\
  (forall aclass asset ledger_type start end_ now exchange ret,
     ledger_sync aclass asset ledger_type start end_ now exchange = Ok (RetValue ret) ->
     exists req ledgers,
       result (json (exchange req)) = Some ledgers /\
       forall lid rec, In (lid, rec) ret ->
         In (lid, LedgerRecord.raw rec) ledgers /\
         LedgerRecord.asset rec
           = fst (_convert_private_sym (PyStr (Ledger.asset (LedgerRecord.raw rec)))) /\
         LedgerRecord.fee_currency rec = LedgerRecord.asset rec) /\
  (forall now exchange ret,
     balances_sync now exchange = Ok (RetValue ret) ->
     exists req balances,
       result (json (exchange req)) = Some balances /\
       forall code bal, In (code, bal) ret ->
         exists currency value,
           In (currency, value) balances /\
           code = cur_map_get currency /\
           bal = {| Balance.available := value; Balance.total := value |}).
Proof.
  split; [|split].
  - intros symbol start end_ now exchange ret. unfold trade_history_sync.
    unfold bind at 1.
    destruct (_post_private _ _ now exchange) as [data|e] eqn:Hpost; [|discriminate].
    apply post_private_inv in Hpost as (req & _ & _ & ->).
    intros H. apply private_result_inv in H as (trades & Hres & H).
    exists req, trades. split; [exact Hres|].
    unfold bind in H.
    destruct (for_items (trade_history_body symbol) trades []) as [ret'|e] eqn:Hfor;
      [|discriminate].
    injection H as <-.
    refine (@for_items_invariant _ _
              (fun d => forall tid rec, In (tid, rec) d ->
                 In (tid, TradeRecord.raw rec) trades /\
                 exchange_symbol_to_std_symbol
                   (fst (_convert_private_sym
                           (PyStr (PrivTrade.pair (TradeRecord.raw rec)))))
                 = Ok (TradeRecord.pair rec))
              _ trades [] ret' _ _ Hfor).
    + intros tid rec [].
    + intros s x s' Hx Hs Hbody.
      exact (@trade_history_body_pair symbol trades s s' x Hx Hs Hbody).
  - intros aclass asset ledger_type start end_ now exchange ret. unfold ledger_sync.
    unfold bind at 1.
    destruct (_post_private _ _ now exchange) as [data|e] eqn:Hpost; [|discriminate].
    apply post_private_inv in Hpost as (req & _ & _ & ->).
    intros H. apply private_result_inv in H as (ledgers & Hres & H).
    exists req, ledgers. split; [exact Hres|].
    injection H as <-.
    refine (@fold_left_invariant _ _
              (fun d => forall lid rec, In (lid, rec) d ->
                 In (lid, LedgerRecord.raw rec) ledgers /\
                 LedgerRecord.asset rec
                   = fst (_convert_private_sym
                            (PyStr (Ledger.asset (LedgerRecord.raw rec)))) /\
                 LedgerRecord.fee_currency rec = LedgerRecord.asset rec)
              _ ledgers [] _ _).
    + intros lid rec [].
    + intros s [ledger_id ledger] Hx Hs lid rec Hrec. unfold ledger_body in Hrec.
      apply dict_set_in in Hrec as [[-> ->] | Hrec]; [|now apply Hs].
      cbn. repeat split. exact Hx.
  - intros now exchange ret. unfold balances_sync.
    unfold bind at 1.
    destruct (_post_private _ _ now exchange) as [data|e] eqn:Hpost; [|discriminate].
    apply post_private_inv in Hpost as (req & _ & _ & ->).
    intros H. apply private_result_inv in H as (balances & Hres & H).
    exists req, balances. split; [exact Hres|].
    injection H as <-.
    refine (@fold_left_invariant _ _
              (fun d => forall code bal, In (code, bal) d ->
                 exists currency value,
                   In (currency, value) balances /\
                   code = cur_map_get currency /\
                   bal = {| Balance.available := value; Balance.total := value |})
              _ balances [] _ _).
    + intros code bal [].
    + intros s [currency value] Hx Hs code bal Hrec.
      apply dict_set_in in Hrec as [[-> ->] | Hrec]; [|now apply Hs].
      exists currency, value. repeat split. exact Hx.
Qed.

End PrivateFacts.

Lemma trade_history_run :
  exists rec,
    @trade_history_sync kraken toy_lib None None None 1616663700 history_exchange
      = Ok (RetValue [("THVRQM-33VKH-UCI7BS", rec)]) /\
    TradeRecord.pair rec = "ETH-GBP" /\ TradeRecord.fee_currency rec = "GBP".
Proof. eexists. split; [reflexivity|]. split; reflexivity. Qed.

Lemma ledger_run :
  exists rec,
    @ledger_sync kraken toy_lib None None None None None 1616663700 ledger_exchange
      = Ok (RetValue [("L4UESK-KG3EQ-UFO4T5", rec)]) /\
    LedgerRecord.asset rec = PyStr "GBP".
Proof. eexists. split; reflexivity. Qed.

(** C9, the claim as stated fails: [balances_sync] reports the codes [XXBT]
    and [XETH] as [BTC] and [XETH], where the private symbol-code transform
    gives [XBT] and [ETH]. *)
Lemma balances_bypass_transform :
  exists ret,
    @balances_sync kraken toy_lib 1616663700 balance_exchange = Ok (RetValue ret) /\
    map fst ret = ["BTC"; "XETH"] /\
    fst (@_convert_private_sym kraken (PyStr "XXBT")) = PyStr "XBT" /\
    fst (@_convert_private_sym kraken (PyStr "XETH")) = PyStr "ETH".
Proof.
  eexists. split; [reflexivity|]. repeat split.
Qed.

(** * Further properties of the code *)

(** ** The private symbol-code transform, again *)

Section ConvertAgain.
Context {E : RestExchange}.

Lemma convert_str_length (s : string) :
  exists t,
    fst (_convert_private_sym (PyStr s)) = PyStr t /\
    String.length t =
      (let n := String.length s in
       if ((n =? 8) || (n =? 9))%nat then n - 2 else if (n =? 4)%nat then 3 else n)%nat.
Proof.
  unfold _convert_private_sym, convert_try, py_len, py_slice, py_slice_from, bind.
  do 10 (destruct s as [|? s]; [eexists; split; reflexivity|]).
  eexists; split; reflexivity.
Qed.

(** X1.  The transform is idempotent on every value: a code it has
    shortened (to 3, 6 or 7 characters) or left alone is left alone by a
    second pass; the result of a string never has 4, 8 or 9 characters. *)
Theorem convert_private_sym_idempotent (v : pyval) :
  fst (_convert_private_sym (fst (_convert_private_sym v)))
    = fst (_convert_private_sym v) /\
  (forall s, v = PyStr s ->
     exists t, fst (_convert_private_sym v) = PyStr t /\
               String.length t <> 4%nat /\ String.length t <> 8%nat /\
               String.length t <> 9%nat).
Proof.
  assert (Hlen : forall s, exists t,
             fst (_convert_private_sym (PyStr s)) = PyStr t /\
             String.length t <> 4%nat /\ String.length t <> 8%nat /\
             String.length t <> 9%nat).
  { intros s. destruct (convert_str_length s) as (t & Ht & Hn). exists t. split; [exact Ht|].
    cbv zeta in Hn.
    destruct ((String.length s =? 8)%nat || (String.length s =? 9)%nat) eqn:H89.
    - apply Bool.orb_true_iff in H89 as [H | H]; apply Nat.eqb_eq in H; lia.
    - apply Bool.orb_false_iff in H89 as [H8 H9].
      apply Nat.eqb_neq in H8, H9.
      destruct (String.length s =? 4)%nat eqn:H4; [lia|].
      apply Nat.eqb_neq in H4. lia. }
  split.
  - destruct v as [| z | s]; try reflexivity.
    destruct (Hlen s) as (t & -> & H4 & H8 & H9).
    unfold _convert_private_sym, convert_try, py_len, bind.
    apply Nat.eqb_neq in H4, H8, H9. now rewrite H4, H8, H9.
  - intros s ->. apply Hlen.
Qed.

End ConvertAgain.

(** ** Private operations: what comes back when no result does *)

Section PrivateEnvelope.
Context {E : RestExchange} {L : PyLib}.

Lemma private_request_ok (command : string) (payload0 : option payload) (now : Q)
    (key : list Byte.byte) :
  b64decode key_secret = Ok key ->
  exists req, private_request command payload0 now = Ok req.
Proof.
  intros Hkey. unfold private_request, bind. rewrite Hkey. now eexists.
Qed.

Lemma private_request_bad_secret (command : string) (payload0 : option payload) (now : Q)
    (e : exn) :
  b64decode key_secret = Raise e -> private_request command payload0 now = Raise e.
Proof.
  intros Hkey. unfold private_request, bind. now rewrite Hkey.
Qed.

Lemma post_private_200 (R : Type) (command : string) (payload0 : option payload) (now : Q)
    (exchange : request -> response R) (req : request) :
  private_request command payload0 now = Ok req ->
  status_code (exchange req) = 200%Z ->
  _post_private command payload0 now exchange = Ok (json (exchange req)).
Proof.
  intros Hreq Hs. unfold _post_private, _handle_error, bind. now rewrite Hreq, Hs.
Qed.

(** The common head of the private operations on a reply with errors. *)
Lemma private_op_error (R A : Type) (command : string) (payload0 : option payload)
    (now : Q) (exchange : request -> response R) (k : R -> res (returned R A))
    (key : list Byte.byte) :
  b64decode key_secret = Ok key ->
  (forall req, error_reply (exchange req)) ->
  exists req,
    private_request command payload0 now = Ok req /\
    (data <- _post_private command payload0 now exchange ;;
     err <- get_error data ;;
     if negb (List.length err =? 0)%nat then Ok (RetEnvelope data)
     else r <- get_result data ;; k r) = Ok (RetEnvelope (json (exchange req))).
Proof.
  intros Hkey Herr.
  destruct (private_request_ok command payload0 now Hkey) as [req Hreq].
  exists req. split; [exact Hreq|].
  destruct (Herr req) as (Hs & e & es & He).
  rewrite (post_private_200 _ _ _ exchange Hreq Hs).
  unfold bind, get_error. now rewrite He.
Qed.

(** The common head of the private operations on a reply without an
    [error] key. *)
Lemma private_op_keyless (R A : Type) (command : string) (payload0 : option payload)
    (now : Q) (exchange : request -> response R) (k : R -> res (returned R A))
    (key : list Byte.byte) :
  b64decode key_secret = Ok key ->
  (forall req, status_code (exchange req) = 200%Z /\ error (json (exchange req)) = None) ->
  (data <- _post_private command payload0 now exchange ;;
   err <- get_error data ;;
   if negb (List.length err =? 0)%nat then Ok (RetEnvelope data)
   else r <- get_result data ;; k r) = Raise (KeyError "error").
Proof.
  intros Hkey Hno.
  destruct (private_request_ok command payload0 now Hkey) as [req Hreq].
  destruct (Hno req) as (Hs & He).
  rewrite (post_private_200 _ _ _ exchange Hreq Hs).
  unfold bind, get_error. now rewrite He.
Qed.

(** X2.  When the exchange answers a private call with a non-empty error
    list, [balances_sync], [orders_sync], [order_status_sync],
    [trade_history_sync] and [ledger_sync] return the envelope of that very
    reply, untouched, instead of raising; the result is not read. *)
Theorem private_ops_return_error_envelope
    (order_id : string) (symbol aclass asset ledger_type : option string)
    (start end_ : option Q) (now : Q)
    (xb : request -> response (dict string decimal))
    (xo : request -> response (dict string (dict string Order.t)))
    (xs : request -> response (dict string Order.t))
    (xt : request -> response (dict string PrivTrade.t))
    (xl : request -> response (dict string Ledger.t)) :
  (exists key, b64decode key_secret = Ok key) ->
  (forall req, error_reply (xb req)) ->
  (forall req, error_reply (xo req)) ->
  (forall req, error_reply (xs req)) ->
  (forall req, error_reply (xt req)) ->
  (forall req, error_reply (xl req)) ->
  (exists req, private_request "/private/Balance" None now = Ok req /\
     balances_sync now xb = Ok (RetEnvelope (json (xb req)))) /\
  (exists req, private_request "/private/OpenOrders" None now = Ok req /\
     orders_sync now xo = Ok (RetEnvelope (json (xo req)))) /\
  (exists req, private_request "/private/QueryOrders" (Some [("txid", PStr order_id)]) now
                 = Ok req /\
     order_status_sync order_id now xs = Ok (RetEnvelope (json (xs req)))) /\
  (exists req, private_request "/private/TradesHistory" (Some (range_params start end_)) now
                 = Ok req /\
     trade_history_sync symbol start end_ now xt = Ok (RetEnvelope (json (xt req)))) /\
  (exists req, req_url req = api ++ "/private/Ledgers" /\
     ledger_sync aclass asset ledger_type start end_ now xl
       = Ok (RetEnvelope (json (xl req)))).
Proof.
  intros [key Hkey] Hb Ho Hs Ht Hl.
  split; [|split; [|split; [|split]]].
  - unfold balances_sync. now apply private_op_error with (key := key).
  - unfold orders_sync. now apply private_op_error with (key := key).
  - unfold order_status_sync. now apply private_op_error with (key := key).
  - unfold trade_history_sync. now apply private_op_error with (key := key).
  - unfold ledger_sync.
    match goal with
    | |- context [_post_private ?c ?p now xl] =>
        destruct (@private_op_error _ (dict string LedgerRecord.t) c p now xl
                    (fun ledgers => Ok (RetValue (fold_left ledger_body ledgers [])))
                    key Hkey Hl) as (req & Hreq & Hop)
    end.
    exists req. split; [|exact Hop].
    unfold private_request, bind in Hreq. rewrite Hkey in Hreq.
    injection Hreq as <-. reflexivity.
Qed.

(** X3.  On a reply without an [error] key the private operations raise
    [KeyError('error')], whatever else the reply holds. *)
Theorem missing_error_key
    (order_id : string) (symbol aclass asset ledger_type : option string)
    (start end_ : option Q) (now : Q)
    (xb : request -> response (dict string decimal))
    (xo : request -> response (dict string (dict string Order.t)))
    (xs : request -> response (dict string Order.t))
    (xt : request -> response (dict string PrivTrade.t))
    (xl : request -> response (dict string Ledger.t)) :
  (exists key, b64decode key_secret = Ok key) ->
  (forall req, status_code (xb req) = 200%Z /\ error (json (xb req)) = None) ->
  (forall req, status_code (xo req) = 200%Z /\ error (json (xo req)) = None) ->
  (forall req, status_code (xs req) = 200%Z /\ error (json (xs req)) = None) ->
  (forall req, status_code (xt req) = 200%Z /\ error (json (xt req)) = None) ->
  (forall req, status_code (xl req) = 200%Z /\ error (json (xl req)) = None) ->
  balances_sync now xb = Raise (KeyError "error") /\
  orders_sync now xo = Raise (KeyError "error") /\
  order_status_sync order_id now xs = Raise (KeyError "error") /\
  trade_history_sync symbol start end_ now xt = Raise (KeyError "error") /\
  ledger_sync aclass asset ledger_type start end_ now xl = Raise (KeyError "error").
Proof.
  intros [key Hkey] Hb Ho Hs Ht Hl.
  split; [|split; [|split; [|split]]].
  - unfold balances_sync. now apply private_op_keyless with (key := key).
  - unfold orders_sync. now apply private_op_keyless with (key := key).
  - unfold order_status_sync. now apply private_op_keyless with (key := key).
  - unfold trade_history_sync. now apply private_op_keyless with (key := key).
  - unfold ledger_sync.
    match goal with
    | |- context [_post_private ?c ?p now xl] =>
        exact (@private_op_keyless _ (dict string LedgerRecord.t) c p now xl
                 (fun ledgers => Ok (RetValue (fold_left ledger_body ledgers [])))
                 key Hkey Hl)
    end.
Qed.

(** X4.  A secret that does not decode is fatal before anything is sent:
    [balances_sync], [orders_sync], [order_status_sync],
    [trade_history_sync], [ledger_sync] and [cancel_order_sync] raise the
    decoding error, whatever the exchange would have answered.
    [place_order_sync] builds its parameters first: an unknown option or
    symbol raises its own exception, and once the parameters are built the
    decoding error is raised. *)
Theorem bad_secret_is_fatal {O : OrderApi} (e : exn)
    (order_id : string) (symbol aclass asset ledger_type : option string)
    (start end_ : option Q) (now : Q)
    (pair : string) (side0 : side) (order_type : string) (amount : decimal)
    (price : option decimal) (options : option (list string))
    (xb : request -> response (dict string decimal))
    (xo : request -> response (dict string (dict string Order.t)))
    (xs : request -> response (dict string Order.t))
    (xt : request -> response (dict string PrivTrade.t))
    (xl : request -> response (dict string Ledger.t))
    (xc : request -> response (dict string decimal))
    (xp : request -> response (list string)) :
  b64decode key_secret = Raise e ->
  balances_sync now xb = Raise e /\
  orders_sync now xo = Raise e /\
  order_status_sync order_id now xs = Raise e /\
  trade_history_sync symbol start end_ now xt = Raise e /\
  ledger_sync aclass asset ledger_type start end_ now xl = Raise e /\
  cancel_order_sync order_id now xc = Raise e /\
  (forall parameters,
     order_parameters pair side0 order_type amount price options = Ok parameters ->
     place_order_sync pair side0 order_type amount price options now xp = Raise e) /\
  (forall e',
     order_parameters pair side0 order_type amount price options = Raise e' ->
     place_order_sync pair side0 order_type amount price options now xp = Raise e').
Proof.
  intros Hkey.
  unfold balances_sync, orders_sync, order_status_sync, trade_history_sync, ledger_sync,
    cancel_order_sync, place_order_sync, _post_private.
  unfold bind at 1 2 3 4 5 6 7 8 9 10 11 12.
  rewrite !(private_request_bad_secret _ _ _ Hkey).
  repeat split.
  - intros parameters Hp. rewrite Hp. unfold bind.
    now rewrite (private_request_bad_secret _ _ _ Hkey).
  - intros e' Hp. now rewrite Hp.
Qed.

End PrivateEnvelope.

(** ** Orders *)

Section OrdersFacts.
Context {E : RestExchange} {L : PyLib}.

(** X7.  [order_status_sync] normalizes the first order of the reply under
    the id the reply files it under: the id asked for is sent to the
    exchange and then shadowed by the loop variable, and further orders of
    the reply are ignored. *)
Theorem order_status_sync_reply_id (asked filed : string) (order : Order.t)
    (others : dict string Order.t) (now : Q)
    (exchange : request -> response (dict string Order.t)) :
  (exists key, b64decode key_secret = Ok key) ->
  (forall req, clean_reply (exchange req) /\
               result (json (exchange req)) = Some ((filed, order) :: others)) ->
  order_status_sync asked now exchange
    = (st <- _order_status filed order ;; Ok (RetValue st)) /\
  (forall st, order_status_sync asked now exchange = Ok (RetValue st) ->
     OrderStatus.order_id st = filed).
Proof.
  intros [key Hkey] Hx.
  assert (Hhead : order_status_sync asked now exchange
                  = (st <- _order_status filed order ;; Ok (RetValue st))).
  { unfold order_status_sync.
    destruct (private_request_ok "/private/QueryOrders" (Some [("txid", PStr asked)]) now Hkey)
      as [req Hreq].
    destruct (Hx req) as ((Hs & He) & Hr).
    rewrite (post_private_200 _ _ _ exchange Hreq Hs).
    unfold bind at 1. unfold get_error, get_result. rewrite He, Hr. reflexivity. }
  split; [exact Hhead|].
  intros st. rewrite Hhead. unfold _order_status, bind.
  destruct (exchange_symbol_to_std_symbol _); [|discriminate].
  destruct (read_status _); [|discriminate].
  intros H; injection H as <-. reflexivity.
Qed.

Lemma orders_append_all (items : dict string Order.t) (acc ret : list OrderStatus.t) :
  for_items orders_append items acc = Ok ret ->
  exists sts, ret = (acc ++ sts)%list /\
              Forall2 (fun st item => _order_status (fst item) (snd item) = Ok st) sts items.
Proof.
  revert acc. induction items as [|item items IH]; intros acc; cbn [for_items].
  - intros H; injection H as <-. exists []. split; [now rewrite app_nil_r | constructor].
  - unfold bind at 1. unfold orders_append at 1. unfold bind at 1.
    destruct (_order_status (fst item) (snd item)) as [st|e] eqn:Hst; [|discriminate].
    intros H. apply IH in H as (sts & -> & Hall).
    exists (st :: sts). split; [now rewrite <- app_assoc | now constructor].
Qed.

Lemma orders_groups_all (groups : dict string (dict string Order.t))
    (acc ret : list OrderStatus.t) :
  for_items (fun ret group => for_items orders_append (snd group) ret) groups acc = Ok ret ->
  exists sts, ret = (acc ++ sts)%list /\
              Forall2 (fun st item => _order_status (fst item) (snd item) = Ok st)
                sts (List.concat (map snd groups)).
Proof.
  revert acc. induction groups as [|group groups IH]; intros acc; cbn [for_items].
  - intros H; injection H as <-. exists []. split; [now rewrite app_nil_r | constructor].
  - unfold bind at 1. cbv beta.
    match goal with
    | |- context [for_items orders_append ?items acc] =>
        destruct (for_items orders_append items acc) as [mid|e] eqn:Hg; [|discriminate]
    end.
    apply orders_append_all in Hg as (sts1 & -> & H1).
    intros H. apply IH in H as (sts2 & -> & H2).
    exists (sts1 ++ sts2)%list. split; [now rewrite app_assoc|].
    cbn [map List.concat]. now apply Forall2_app.
Qed.

(** X8.  When [orders_sync] returns a list, it holds exactly one record per
    order of the reply, in reply order across the groups, each the
    normalization of its order; so every order of the reply had a known
    status and a known pair: a single order that fails to normalize makes
    the whole call raise. *)
Theorem orders_sync_all_or_nothing (now : Q)
    (exchange : request -> response (dict string (dict string Order.t)))
    (ret : list OrderStatus.t) :
  orders_sync now exchange = Ok (RetValue ret) ->
  exists req groups,
    result (json (exchange req)) = Some groups /\
    Forall2 (fun st item => _order_status (fst item) (snd item) = Ok st)
      ret (List.concat (map snd groups)) /\
    map OrderStatus.order_id ret = map fst (List.concat (map snd groups)) /\
    Forall (fun item => status_of (Order.status (snd item)) <> None)
      (List.concat (map snd groups)).
Proof.
  unfold orders_sync. unfold bind at 1.
  destruct (_post_private _ _ now exchange) as [data|e] eqn:Hpost; [|discriminate].
  apply post_private_inv in Hpost as (req & _ & _ & ->).
  intros H. apply private_result_inv in H as (groups & Hres & H).
  exists req, groups. split; [exact Hres|].
  unfold bind in H.
  match type of H with
  | context [for_items ?body groups []] =>
      destruct (for_items body groups []) as [ret'|e] eqn:Hfor; [|discriminate]
  end.
  injection H as <-.
  apply orders_groups_all in Hfor as (sts & -> & Hall). cbn [app].
  split; [exact Hall|].
  induction Hall as [|st item sts items Hst Hall IH]; [repeat split; constructor|].
  destruct IH as (Hids & Hknown).
  apply order_status_inv in Hst as Hinv. destruct Hinv as (Hstatus & _).
  split.
  - cbn [map]. f_equal; [|exact Hids].
    unfold _order_status, bind in Hst.
    destruct (exchange_symbol_to_std_symbol _); [|discriminate].
    destruct (read_status _); [|discriminate].
    injection Hst as <-. reflexivity.
  - constructor; [|exact Hknown]. now rewrite Hstatus.
Qed.

End OrdersFacts.

(** ** Dicts keyed by strings *)

Section DictFacts.
Variable V : Type.

Lemma dict_set_keys (k k' : string) (v : V) (d : dict string V) :
  In k' (map fst (dict_set String.eqb k v d)) <-> k' = k \/ In k' (map fst d).
Proof.
  induction d as [|[k0 v0] d IH]; simpl.
  - intuition.
  - destruct (String.eqb_spec k k0) as [-> | Hne]; simpl.
    + intuition.
    + rewrite IH. intuition.
Qed.

Lemma dict_set_nodup (k : string) (v : V) (d : dict string V) :
  NoDup (map fst d) -> NoDup (map fst (dict_set String.eqb k v d)).
Proof.
  induction d as [|[k0 v0] d IH]; simpl; intros H.
  - constructor; [intros [] | constructor].
  - inversion H as [|? ? Hnot Hrest]; subst.
    destruct (String.eqb_spec k k0) as [-> | Hne]; simpl.
    + now constructor.
    + constructor; [|now apply IH].
      rewrite dict_set_keys. intros [-> | Hin]; [now apply Hne | now apply Hnot].
Qed.

Lemma dict_set_fresh (k : string) (v : V) (d : dict string V) :
  ~ In k (map fst d) -> dict_set String.eqb k v d = (d ++ [(k, v)])%list.
Proof.
  induction d as [|[k0 v0] d IH]; simpl; intros H; [reflexivity|].
  destruct (String.eqb_spec k k0) as [-> | Hne].
  - exfalso. apply H. now left.
  - f_equal. apply IH. intros Hin. apply H. now right.
Qed.

Lemma dict_get_set_other (k k' : string) (v : V) (d : dict string V) :
  k' <> k -> dict_get String.eqb k' (dict_set String.eqb k v d) = dict_get String.eqb k' d.
Proof.
  intros Hne. induction d as [|[k0 v0] d IH]; simpl.
  - destruct (String.eqb_spec k' k); [contradiction | reflexivity].
  - destruct (String.eqb_spec k k0) as [-> | Hk]; simpl.
    + destruct (String.eqb_spec k' k0); [contradiction | reflexivity].
    + destruct (String.eqb_spec k' k0); [reflexivity | exact IH].
Qed.

Lemma dict_set_length (k : string) (v : V) (d : dict string V) :
  (List.length (dict_set String.eqb k v d) <= S (List.length d))%nat.
Proof.
  induction d as [|[k0 v0] d IH]; simpl; [lia|].
  destruct (String.eqb k k0); simpl; lia.
Qed.

End DictFacts.

(** ** [balances_sync] *)

Section BalancesFacts.
Context {E : RestExchange} {L : PyLib}.

(** The dict comprehension of [balances_sync]. *)
Lemma balances_fold (balances : dict string decimal) (acc : dict string Balance.t) :
  let step := fun (acc : dict string Balance.t) (item : string * decimal) =>
    dict_set String.eqb (cur_map_get (fst item))
      {| Balance.available := snd item; Balance.total := snd item |} acc in
  let ret := fold_left step balances acc in
  (NoDup (map fst acc) -> NoDup (map fst ret)) /\
  (forall code, In code (map fst ret) <->
     In code (map fst acc) \/ In code (map cur_map_get (map fst balances))) /\
  (List.length ret <= List.length acc + List.length balances)%nat /\
  (forall code, ~ In code (map cur_map_get (map fst balances)) ->
     dict_get String.eqb code ret = dict_get String.eqb code acc).
Proof.
  cbv zeta. revert acc. induction balances as [|[currency value] balances IH]; intros acc.
  - cbn. split; [tauto|]. split; [intros code; tauto|]. split; [lia | reflexivity].
  - cbn [fold_left map fst snd List.length].
    destruct (IH (dict_set String.eqb (cur_map_get currency)
                    {| Balance.available := value; Balance.total := value |} acc))
      as (Hnd & Hkeys & Hlen & Hget).
    split; [|split; [|split]].
    + intros H. apply Hnd. now apply dict_set_nodup.
    + intros code. rewrite Hkeys, dict_set_keys. cbn [In]. intuition.
    + pose proof (dict_set_length (cur_map_get currency)
                    {| Balance.available := value; Balance.total := value |} acc).
      lia.
    + intros code Hnot. rewrite Hget.
      * apply dict_get_set_other. intros ->. apply Hnot. now left.
      * intros Hin. apply Hnot. now right.
Qed.

(** X12.  The dict [balances_sync] returns has one entry per translated
    currency code: its keys are distinct and are exactly the codes of the
    reply after the [cur_map] lookup, so two currencies with the same
    translation (XXBT and BTC) share one entry; the entry holds the value of
    the last of them in the reply. *)
Theorem balances_sync_codes (now : Q) (exchange : request -> response (dict string decimal))
    (ret : dict string Balance.t) :
  balances_sync now exchange = Ok (RetValue ret) ->
  exists req balances,
    result (json (exchange req)) = Some balances /\
    NoDup (map fst ret) /\
    (forall code, In code (map fst ret) <-> In code (map cur_map_get (map fst balances))) /\
    (List.length ret <= List.length balances)%nat /\
    (forall before currency value after,
       balances = (before ++ (currency, value) :: after)%list ->
       ~ In (cur_map_get currency) (map cur_map_get (map fst after)) ->
       dict_get String.eqb (cur_map_get currency) ret
         = Some {| Balance.available := value; Balance.total := value |}).
Proof.
  unfold balances_sync. unfold bind at 1.
  destruct (_post_private _ _ now exchange) as [data|e] eqn:Hpost; [|discriminate].
  apply post_private_inv in Hpost as (req & _ & _ & ->).
  intros H. apply private_result_inv in H as (balances & Hres & H).
  exists req, balances. split; [exact Hres|].
  injection H as <-.
  destruct (balances_fold balances []) as (Hnd & Hkeys & Hlen & _).
  split; [apply Hnd; constructor|].
  split; [intros code; rewrite Hkeys; cbn; tauto|].
  split; [exact Hlen|].
  intros before currency value after -> Hlast.
  rewrite fold_left_app. cbn [fold_left fst snd].
  destruct (balances_fold after
              (dict_set String.eqb (cur_map_get currency)
                 {| Balance.available := value; Balance.total := value |}
                 (fold_left
                    (fun (acc : dict string Balance.t) (item : string * decimal) =>
                       dict_set String.eqb (cur_map_get (fst item))
                         {| Balance.available := snd item; Balance.total := snd item |} acc)
                    before []))) as (_ & _ & _ & Hget).
  rewrite Hget by exact Hlast. apply dict_get_set_same.
Qed.

End BalancesFacts.

(** ** [trade_history_sync] and [ledger_sync] *)

Section HistoryFacts.
Context {E : RestExchange} {L : PyLib}.

(** One turn of the loop of [trade_history_sync] that does not raise: the
    pair is known, and the trade is either skipped or filed under its id. *)
Lemma trade_history_body_ok (symbol : option string) (ret ret' : dict string TradeRecord.t)
    (item : string * PrivTrade.t) :
  trade_history_body symbol ret item = Ok ret' ->
  exists std,
    exchange_symbol_to_std_symbol
      (fst (_convert_private_sym (PyStr (PrivTrade.pair (snd item))))) = Ok std /\
    ((truthy_str symbol = true /\ symbol <> Some std /\ ret' = ret) \/
     (exists rec,
        ret' = dict_set String.eqb (fst item) rec ret /\
        TradeRecord.trade_id rec = fst item /\
        TradeRecord.pair rec = std /\
        TradeRecord.raw rec = snd item /\
        (truthy_str symbol = true -> symbol = Some std) /\
        py_index (str_split "-" std) 1 = Ok (TradeRecord.fee_currency rec))).
Proof.
  unfold trade_history_body, bind.
  destruct (exchange_symbol_to_std_symbol _) as [std|e] eqn:Hstd; [|discriminate].
  intros H. exists std. split; [reflexivity|].
  destruct symbol as [[|c s]|]; cbn [truthy_str] in *.
  - destruct (py_index (str_split "-" std) 1) as [fc|e] eqn:Hfc; [|discriminate].
    injection H as <-. right. eexists. repeat split; try reflexivity; try discriminate;
      try exact Hfc.
  - destruct (String.eqb_spec std (String c s)) as [-> | Hne]; cbn [negb] in H.
    + destruct (py_index (str_split "-" (String c s)) 1) as [fc|e] eqn:Hfc; [|discriminate].
      injection H as <-. right. eexists. repeat split; try reflexivity; try exact Hfc.
    + injection H as <-. left. repeat split. intros Heq. injection Heq as Heq.
      apply Hne. now symmetry.
  - destruct (py_index (str_split "-" std) 1) as [fc|e] eqn:Hfc; [|discriminate].
    injection H as <-. right. eexists. repeat split; try reflexivity; try discriminate;
      try exact Hfc.
Qed.

Lemma trade_history_items (symbol : option string) (items : dict string PrivTrade.t)
    (acc ret : dict string TradeRecord.t) :
  for_items (trade_history_body symbol) items acc = Ok ret ->
  (forall k, In k (map fst acc) -> In k (map fst ret)) /\
  (forall k, In k (map fst ret) -> In k (map fst acc) \/ In k (map fst items)) /\
  (NoDup (map fst acc) -> NoDup (map fst ret)) /\
  (forall item, In item items ->
     exists std,
       exchange_symbol_to_std_symbol
         (fst (_convert_private_sym (PyStr (PrivTrade.pair (snd item))))) = Ok std /\
       (truthy_str symbol = false -> In (fst item) (map fst ret))).
Proof.
  revert acc. induction items as [|item items IH]; intros acc; cbn [for_items].
  - intros H; injection H as <-. repeat split; auto. intros item [].
  - unfold bind at 1.
    destruct (trade_history_body symbol acc item) as [mid|e] eqn:Hbody; [|discriminate].
    intros H. apply IH in H as (Hup & Hdown & Hnd & Hitems).
    apply trade_history_body_ok in Hbody as (std & Hstd & Hmid).
    assert (Hacc : forall k, In k (map fst acc) -> In k (map fst mid)).
    { destruct Hmid as [(_ & _ & ->) | (rec & -> & _)]; [auto|].
      intros k Hk. apply dict_set_keys. now right. }
    assert (Hmidk : forall k, In k (map fst mid) -> In k (map fst acc) \/ k = fst item).
    { destruct Hmid as [(_ & _ & ->) | (rec & -> & _)]; [auto|].
      intros k Hk. apply dict_set_keys in Hk. tauto. }
    split; [auto|]. split; [|split].
    + intros k Hk. cbn [map In]. destruct (Hdown k Hk) as [Hm | Hi]; [|tauto].
      destruct (Hmidk k Hm); [tauto | subst; tauto].
    + intros Hn. apply Hnd.
      destruct Hmid as [(_ & _ & ->) | (rec & -> & _)]; [exact Hn|].
      now apply dict_set_nodup.
    + intros item' [<- | Hin]; [|now apply Hitems].
      exists std. split; [exact Hstd|]. intros Hno. apply Hup.
      destruct Hmid as [(Ht & _) | (rec & -> & _)]; [congruence|].
      apply dict_set_keys. now left.
Qed.

(** X13.  With a symbol filter, every trade [trade_history_sync] reports
    has that symbol as its pair, is filed under its own trade id, and names
    as fee currency the part of the symbol after its first dash. *)
Theorem trade_history_filter (c : ascii) (s : string) (start end_ : option Q) (now : Q)
    (exchange : request -> response (dict string PrivTrade.t))
    (ret : dict string TradeRecord.t) :
  trade_history_sync (Some (String c s)) start end_ now exchange = Ok (RetValue ret) ->
  forall tid rec, In (tid, rec) ret ->
    TradeRecord.pair rec = String c s /\
    TradeRecord.trade_id rec = tid /\
    py_index (str_split "-" (String c s)) 1 = Ok (TradeRecord.fee_currency rec).
Proof.
  unfold trade_history_sync. unfold bind at 1.
  destruct (_post_private _ _ now exchange) as [data|e] eqn:Hpost; [|discriminate].
  intros H. apply private_result_inv in H as (trades & Hres & H).
  unfold bind in H.
  destruct (for_items (trade_history_body (Some (String c s))) trades []) as [ret'|e] eqn:Hfor;
    [|discriminate].
  injection H as <-.
  refine (@for_items_invariant _ _
            (fun d => forall tid rec, In (tid, rec) d ->
               TradeRecord.pair rec = String c s /\
               TradeRecord.trade_id rec = tid /\
               py_index (str_split "-" (String c s)) 1 = Ok (TradeRecord.fee_currency rec))
            _ trades [] ret' _ _ Hfor).
  - intros tid rec [].
  - intros d item d' _ Hd Hbody tid rec Hin.
    apply trade_history_body_ok in Hbody
      as (std & _ & [(_ & _ & ->) | (rec' & -> & Hid & Hpair & _ & Hsym & Hfee)]);
      [now apply Hd|].
    apply dict_set_in in Hin as [[-> ->] | Hin]; [|now apply Hd].
    specialize (Hsym eq_refl). injection Hsym as Hsym.
    rewrite Hsym. split; [exact Hpair|]. split; [exact Hid | exact Hfee].
Qed.

(** X14.  [trade_history_sync] is all or nothing: when it returns a dict,
    the pair of every trade of the reply, filtered out or not, was known to
    the symbol table (one unknown pair makes the call raise); the dict is
    keyed by distinct trade ids of the reply, and without a symbol filter
    every trade id of the reply is in it. *)
Theorem trade_history_all_or_nothing (symbol : option string) (start end_ : option Q)
    (now : Q) (exchange : request -> response (dict string PrivTrade.t))
    (ret : dict string TradeRecord.t) :
  trade_history_sync symbol start end_ now exchange = Ok (RetValue ret) ->
  exists req trades,
    result (json (exchange req)) = Some trades /\
    (forall item, In item trades ->
       exists std,
         exchange_symbol_to_std_symbol
           (fst (_convert_private_sym (PyStr (PrivTrade.pair (snd item))))) = Ok std) /\
    NoDup (map fst ret) /\
    (forall tid, In tid (map fst ret) -> In tid (map fst trades)) /\
    (truthy_str symbol = false ->
       forall tid, In tid (map fst trades) -> In tid (map fst ret)).
Proof.
  unfold trade_history_sync. unfold bind at 1.
  destruct (_post_private _ _ now exchange) as [data|e] eqn:Hpost; [|discriminate].
  apply post_private_inv in Hpost as (req & _ & _ & ->).
  intros H. apply private_result_inv in H as (trades & Hres & H).
  exists req, trades. split; [exact Hres|].
  unfold bind in H.
  destruct (for_items (trade_history_body symbol) trades []) as [ret'|e] eqn:Hfor;
    [|discriminate].
  injection H as <-.
  apply trade_history_items in Hfor as (_ & Hdown & Hnd & Hitems).
  split; [|split; [|split]].
  - intros item Hin. destruct (Hitems item Hin) as (std & Hstd & _). now exists std.
  - apply Hnd. constructor.
  - intros tid Hin. destruct (Hdown tid Hin) as [[] | H]. exact H.
  - intros Hno tid Hin. apply in_map_iff in Hin as (item & <- & Hin).
    destruct (Hitems item Hin) as (std & _ & Hret). now apply Hret.
Qed.

Lemma ledger_body_fresh (acc : dict string LedgerRecord.t) (item : string * Ledger.t) :
  ~ In (fst item) (map fst acc) ->
  ledger_body acc item = (acc ++ ledger_body [] item)%list.
Proof.
  intros H. unfold ledger_body. now rewrite dict_set_fresh.
Qed.

Lemma ledger_fold_fresh (ledgers : dict string Ledger.t) (acc : dict string LedgerRecord.t) :
  NoDup (map fst acc ++ map fst ledgers) ->
  fold_left ledger_body ledgers acc
    = (acc ++ List.concat (map (ledger_body []) ledgers))%list.
Proof.
  revert acc. induction ledgers as [|item ledgers IH]; intros acc Hnd; cbn [fold_left map].
  - cbn. now rewrite app_nil_r.
  - cbn [map] in Hnd.
    assert (Hfresh : ~ In (fst item) (map fst acc)).
    { intros Hin. apply NoDup_remove_2 in Hnd. apply Hnd. apply in_or_app. now left. }
    rewrite (ledger_body_fresh acc item Hfresh). rewrite IH.
    + cbn [List.concat]. now rewrite <- app_assoc.
    + rewrite map_app. unfold ledger_body. cbn [dict_set map fst].
      rewrite <- app_assoc. exact Hnd.
Qed.

(** X15.  [ledger_sync] reports every entry of the reply, in reply order,
    each under its own ledger id and with the entry kept as [raw]: no entry
    is dropped or merged. *)
Theorem ledger_sync_complete (aclass asset ledger_type : option string)
    (start end_ : option Q) (now : Q)
    (exchange : request -> response (dict string Ledger.t))
    (ret : dict string LedgerRecord.t) :
  ledger_sync aclass asset ledger_type start end_ now exchange = Ok (RetValue ret) ->
  exists req ledgers,
    result (json (exchange req)) = Some ledgers /\
    (NoDup (map fst ledgers) ->
       map fst ret = map fst ledgers /\
       map (fun entry => LedgerRecord.raw (snd entry)) ret = map snd ledgers /\
       map (fun entry => LedgerRecord.ledger_id (snd entry)) ret = map fst ledgers).
Proof.
  unfold ledger_sync. unfold bind at 1.
  destruct (_post_private _ _ now exchange) as [data|e] eqn:Hpost; [|discriminate].
  apply post_private_inv in Hpost as (req & _ & _ & ->).
  intros H. apply private_result_inv in H as (ledgers & Hres & H).
  exists req, ledgers. split; [exact Hres|].
  injection H as <-. intros Hnd.
  rewrite ledger_fold_fresh by exact Hnd. cbn [app].
  clear. induction ledgers as [|[lid ledger] ledgers IH]; [repeat split|].
  destruct IH as (H1 & H2 & H3).
  cbn [map List.concat]. unfold ledger_body at 1 3 5. cbn [dict_set app map fst snd].
  cbn [LedgerRecord.raw LedgerRecord.ledger_id].
  now rewrite H1, H2, H3.
Qed.

End HistoryFacts.

(** ** Placing and cancelling orders *)

Lemma map_res_all (A B : Type) (f : A -> res B) (l : list A) (ys : list B) :
  map_res f l = Ok ys -> Forall2 (fun x y => f x = Ok y) l ys.
Proof.
  revert ys. induction l as [|x l IH]; intros ys; cbn [map_res].
  - intros H; injection H as <-. constructor.
  - unfold bind. destruct (f x) as [y|e] eqn:Hx; [|discriminate].
    destruct (map_res f l) as [ys'|e]; [|discriminate].
    intros H; injection H as <-. constructor; [exact Hx | now apply IH].
Qed.

Section PlaceOrderFacts.
Context {E : RestExchange} {L : PyLib} {O : OrderApi}.

(** X16.  Once the exchange has accepted an order, [place_order_sync]
    queries the status of every transaction id of the reply: for exactly
    one id it returns that status alone, for any other number (none
    included) a list with one status per id, in order; a status query that
    raises makes the call raise although the order is placed. *)
Theorem place_order_statuses (symbol : string) (side0 : side) (order_type : string)
    (amount : decimal) (price : option decimal) (options : option (list string))
    (now : Q) (exchange : request -> response (list string))
    (parameters : payload) (txid : list string) :
  order_parameters symbol side0 order_type amount price options = Ok parameters ->
  (exists key, b64decode key_secret = Ok key) ->
  (forall req, clean_reply (exchange req) /\ result (json (exchange req)) = Some txid) ->
  let placed := place_order_sync symbol side0 order_type amount price options now exchange in
  (forall tx, txid = [tx] -> placed = (st <- order_status tx ;; Ok (PlacedOne st))) /\
  (List.length txid <> 1%nat ->
     placed = (sts <- map_res order_status txid ;; Ok (PlacedMany sts))) /\
  (forall sts, placed = Ok (PlacedMany sts) ->
     Forall2 (fun tx st => order_status tx = Ok st) txid sts) /\
  (forall tx e, In tx txid -> order_status tx = Raise e -> forall v, placed <> Ok v).
Proof.
  intros Hpar [key Hkey] Hx. cbv zeta.
  assert (Hhead : place_order_sync symbol side0 order_type amount price options now exchange
            = if (List.length txid =? 1)%nat
              then tx <- py_index txid 0 ;; st <- order_status tx ;; Ok (PlacedOne st)
              else sts <- map_res order_status txid ;; Ok (PlacedMany sts)).
  { unfold place_order_sync. rewrite Hpar. unfold bind at 1.
    destruct (private_request_ok "/private/AddOrder" (Some parameters) now Hkey)
      as [req Hreq].
    destruct (Hx req) as ((Hs & He) & Hr).
    rewrite (post_private_200 _ _ _ exchange Hreq Hs).
    unfold bind at 1. unfold get_error. rewrite He. unfold bind at 1. cbn [List.length Nat.eqb negb].
    unfold bind at 1. unfold get_result. now rewrite Hr. }
  rewrite Hhead. split; [|split; [|split]].
  - intros tx ->. reflexivity.
  - intros Hlen. apply Nat.eqb_neq in Hlen. now rewrite Hlen.
  - intros sts. destruct (List.length txid =? 1)%nat.
    + unfold bind. destruct (py_index txid 0); [|discriminate].
      destruct (order_status a); discriminate.
    + unfold bind. destruct (map_res order_status txid) as [sts'|e] eqn:Hm; [|discriminate].
      intros H; injection H as <-. now apply map_res_all.
  - intros tx e Hin Hraise v. destruct (List.length txid =? 1)%nat eqn:Hlen.
    + destruct txid as [|tx0 [|tx1 rest]]; try discriminate.
      destruct Hin as [<- | []]. cbn. unfold bind. now rewrite Hraise.
    + unfold bind. destruct (map_res order_status txid) as [sts|e'] eqn:Hm; [|discriminate].
      apply map_res_all in Hm. exfalso.
      clear -Hm Hin Hraise. induction Hm as [|x y l ys Hxy Hm IH]; [destruct Hin|].
      destruct Hin as [<- | Hin]; [congruence | auto].
Qed.

(** X17.  What an order request carries: [pair], [type], [volume] and
    [ordertype], then [price] when a price is given (zero included), then
    [oflags] when the option list is not empty, and last the [nonce] that
    signing adds; [type] is ["buy"] for [BUY] and ["sell"] otherwise. *)
Theorem order_request_payload (symbol : string) (side0 : side) (order_type : string)
    (amount : decimal) (price : option decimal) (options : option (list string))
    (now : Q) (parameters : payload) (req : request) :
  order_parameters symbol side0 order_type amount price options = Ok parameters ->
  private_request "/private/AddOrder" (Some parameters) now = Ok req ->
  map fst (req_data req)
    = (["pair"; "type"; "volume"; "ordertype"]
         ++ (match price with Some _ => ["price"] | None => [] end)
         ++ (match options with Some (_ :: _) => ["oflags"] | _ => [] end)
         ++ ["nonce"])%list /\
  dict_get String.eqb "type" (req_data req)
    = Some (PStr (match side0 with BUY => "buy" | SELL => "sell" end)) /\
  dict_get String.eqb "volume" (req_data req) = Some (PStr (str_decimal amount)) /\
  dict_get String.eqb "nonce" (req_data req) = Some (PInt (nonce_of now)).
Proof.
  unfold order_parameters, private_request.
  destruct price as [p|]; destruct options as [[|o os]|]; cbn [map_res]; unfold bind;
    (destruct (normalize_order_options self_id order_type) as [ot|e]; [|discriminate]);
    (destruct (std_symbol_to_exchange_symbol symbol) as [sym0|e]; [|discriminate]);
    (destruct (b64decode key_secret) as [key|e]; [|intros _ H; discriminate H]);
    try (destruct (normalize_order_options self_id o) as [f|e]; [|discriminate];
         destruct (map_res (normalize_order_options self_id) os) as [fs|e]; [|discriminate]);
    intros H; injection H as <-; intros H; injection H as <-;
    repeat split.
Qed.

(** X18.  On a reply with errors [place_order_sync] and
    [cancel_order_sync] return its envelope and query no status; on a reply
    without errors [cancel_order_sync] does not read the result: it returns
    the status of the id it was asked to cancel. *)
Theorem place_and_cancel_envelopes (symbol : string) (side0 : side) (order_type : string)
    (amount : decimal) (price : option decimal) (options : option (list string))
    (order_id : string) (now : Q) (parameters : payload) (R : Type)
    (xp : request -> response (list string)) (xc xc' : request -> response R) :
  order_parameters symbol side0 order_type amount price options = Ok parameters ->
  (exists key, b64decode key_secret = Ok key) ->
  (forall req, error_reply (xp req)) ->
  (forall req, error_reply (xc req)) ->
  (forall req, clean_reply (xc' req)) ->
  (exists req, private_request "/private/AddOrder" (Some parameters) now = Ok req /\
     place_order_sync symbol side0 order_type amount price options now xp
       = Ok (PlacedEnvelope (json (xp req)))) /\
  (exists req, private_request "/private/CancelOrder" (Some [("txid", PStr order_id)]) now
                 = Ok req /\
     cancel_order_sync order_id now xc = Ok (RetEnvelope (json (xc req)))) /\
  cancel_order_sync order_id now xc' = (st <- order_status order_id ;; Ok (RetValue st)).
Proof.
  intros Hpar [key Hkey] Hp Hc Hc'. split; [|split].
  - destruct (private_request_ok "/private/AddOrder" (Some parameters) now Hkey)
      as [req Hreq].
    exists req. split; [exact Hreq|].
    unfold place_order_sync. rewrite Hpar. unfold bind at 1.
    destruct (Hp req) as (Hs & e & es & He).
    rewrite (post_private_200 _ _ _ xp Hreq Hs).
    unfold bind, get_error. now rewrite He.
  - destruct (private_request_ok "/private/CancelOrder" (Some [("txid", PStr order_id)])
                now Hkey) as [req Hreq].
    exists req. split; [exact Hreq|].
    unfold cancel_order_sync.
    destruct (Hc req) as (Hs & e & es & He).
    rewrite (post_private_200 _ _ _ xc Hreq Hs).
    unfold bind, get_error. now rewrite He.
  - destruct (private_request_ok "/private/CancelOrder" (Some [("txid", PStr order_id)])
                now Hkey) as [req Hreq].
    unfold cancel_order_sync.
    destruct (Hc' req) as (Hs & He).
    rewrite (post_private_200 _ _ _ xc' Hreq Hs).
    unfold bind at 1. unfold get_error. rewrite He. reflexivity.
Qed.

End PlaceOrderFacts.

(** ** The further properties at work on the sample exchanges *)

Lemma private_ops_return_error_envelope_witness :
  @balances_sync kraken toy_lib 1616663700 (@error_exchange _)
    = Ok (RetEnvelope {| error := Some ["EGeneral:Invalid arguments"]; result := None |}) /\
  @orders_sync kraken toy_lib 1616663700 (@error_exchange _)
    = Ok (RetEnvelope {| error := Some ["EGeneral:Invalid arguments"]; result := None |}) /\
  @trade_history_sync kraken toy_lib (Some "ETH-GBP") None None 1616663700 (@error_exchange _)
    = Ok (RetEnvelope {| error := Some ["EGeneral:Invalid arguments"]; result := None |}).
Proof.
  destruct (@private_ops_return_error_envelope kraken toy_lib "OB5VMB-B4U2U-DK2WRW"
              (Some "ETH-GBP") None None None None None 1616663700
              (@error_exchange _) (@error_exchange _) (@error_exchange _)
              (@error_exchange _) (@error_exchange _))
    as ((rb & _ & Hb) & (ro & _ & Ho) & _ & (rt & _ & Ht) & _).
  - eexists. reflexivity.
  - intros req. split; [reflexivity|]. eexists; eexists; reflexivity.
  - intros req. split; [reflexivity|]. eexists; eexists; reflexivity.
  - intros req. split; [reflexivity|]. eexists; eexists; reflexivity.
  - intros req. split; [reflexivity|]. eexists; eexists; reflexivity.
  - intros req. split; [reflexivity|]. eexists; eexists; reflexivity.
  - split; [exact Hb|]. split; [exact Ho | exact Ht].
Defined.

Lemma missing_error_key_witness :
  @balances_sync kraken toy_lib 1616663700 (@keyless_exchange _) = Raise (KeyError "error") /\
  @ledger_sync kraken toy_lib None None None None None 1616663700 (@keyless_exchange _)
    = Raise (KeyError "error").
Proof.
  destruct (@missing_error_key kraken toy_lib "OB5VMB-B4U2U-DK2WRW"
              None None None None None None 1616663700
              (@keyless_exchange _) (@keyless_exchange _) (@keyless_exchange _)
              (@keyless_exchange _) (@keyless_exchange _))
    as (Hb & _ & _ & _ & Hl).
  - eexists. reflexivity.
  - intros req. split; reflexivity.
  - intros req. split; reflexivity.
  - intros req. split; reflexivity.
  - intros req. split; reflexivity.
  - intros req. split; reflexivity.
  - split; [exact Hb | exact Hl].
Defined.

Lemma bad_secret_is_fatal_witness :
  @balances_sync kraken strict_lib 1616663700 balance_exchange = Raise BinasciiError /\
  @orders_sync kraken strict_lib 1616663700 open_orders_exchange = Raise BinasciiError /\
  @order_status_sync kraken strict_lib "OB5VMB-B4U2U-DK2WRW" 1616663700 filed_order_exchange
    = Raise BinasciiError /\
  @trade_history_sync kraken strict_lib None None None 1616663700 history_exchange
    = Raise BinasciiError /\
  @ledger_sync kraken strict_lib None None None None None 1616663700 ledger_exchange
    = Raise BinasciiError /\
  @cancel_order_sync kraken strict_lib toy_orders _ "OB5VMB-B4U2U-DK2WRW" 1616663700
    balance_exchange = Raise BinasciiError /\
  @place_order_sync kraken strict_lib toy_orders "BTC-USD" BUY "limit"
    {| coeff := 15; expo := -1 |} None None 1616663700 txid_exchange = Raise BinasciiError /\
  @place_order_sync kraken strict_lib toy_orders "DOGE-USD" BUY "limit"
    {| coeff := 15; expo := -1 |} None None 1616663700 txid_exchange
    = Raise (UnsupportedSymbol "DOGE-USD").
Proof.
  destruct (@bad_secret_is_fatal kraken strict_lib toy_orders BinasciiError
              "OB5VMB-B4U2U-DK2WRW" None None None None None None 1616663700
              "BTC-USD" BUY "limit" {| coeff := 15; expo := -1 |} None None
              balance_exchange open_orders_exchange filed_order_exchange
              history_exchange ledger_exchange balance_exchange txid_exchange eq_refl)
    as (Hb & Ho & Hs & Ht & Hl & Hc & Hp & _).
  destruct (@bad_secret_is_fatal kraken strict_lib toy_orders BinasciiError
              "OB5VMB-B4U2U-DK2WRW" None None None None None None 1616663700
              "DOGE-USD" BUY "limit" {| coeff := 15; expo := -1 |} None None
              balance_exchange open_orders_exchange filed_order_exchange
              history_exchange ledger_exchange balance_exchange txid_exchange eq_refl)
    as (_ & _ & _ & _ & _ & _ & _ & Hq).
  repeat (split; [assumption|]). split.
  - eapply Hp. reflexivity.
  - apply Hq. reflexivity.
Defined.

Lemma order_status_sync_reply_id_witness :
  @order_status_sync kraken toy_lib "asked-for-another-id" 1616663700 filed_order_exchange
    = Ok (RetValue open_order_record) /\
  OrderStatus.order_id open_order_record = "OB5VMB-B4U2U-DK2WRW".
Proof.
  destruct (@order_status_sync_reply_id kraken toy_lib "asked-for-another-id"
              "OB5VMB-B4U2U-DK2WRW" open_order
              [("OQCLML-BW3P3-BUCMWZ", overfilled_order)] 1616663700 filed_order_exchange)
    as (Hrun & Hid).
  - eexists. reflexivity.
  - intros req. repeat split.
  - split; [rewrite Hrun; reflexivity|]. apply Hid. rewrite Hrun. reflexivity.
Defined.

Lemma orders_sync_all_or_nothing_witness :
  exists ret,
    @orders_sync kraken toy_lib 1616663700 open_orders_exchange = Ok (RetValue ret) /\
    exists req groups,
      result (json (open_orders_exchange req)) = Some groups /\
      Forall2 (fun st item => @_order_status kraken (fst item) (snd item) = Ok st)
        ret (List.concat (map snd groups)) /\
      map OrderStatus.order_id ret = map fst (List.concat (map snd groups)) /\
      Forall (fun item => status_of (Order.status (snd item)) <> None)
        (List.concat (map snd groups)).
Proof.
  eexists. split; [reflexivity|].
  apply (@orders_sync_all_or_nothing kraken toy_lib 1616663700 open_orders_exchange).
  reflexivity.
Defined.

Lemma balances_sync_codes_witness :
  exists ret,
    @balances_sync kraken toy_lib 1616663700 merged_balance_exchange = Ok (RetValue ret) /\
    map fst ret = ["BTC"; "USD"] /\
    dict_get String.eqb "BTC" ret
      = Some {| Balance.available := {| coeff := 2; expo := 0 |};
                Balance.total := {| coeff := 2; expo := 0 |} |}.
Proof.
  eexists. split; [reflexivity|]. split; [reflexivity|].
  destruct (@balances_sync_codes kraken toy_lib 1616663700 merged_balance_exchange _ eq_refl)
    as (req & balances & Hres & _ & _ & _ & Hlast).
  injection Hres as <-.
  apply (Hlast [("XXBT", {| coeff := 15; expo := -1 |}); ("ZUSD", {| coeff := 100; expo := 0 |})]
           "BTC" {| coeff := 2; expo := 0 |} []).
  - reflexivity.
  - intros [].
Defined.

Lemma trade_history_filter_witness :
  TradeRecord.pair eth_gbp_record = "ETH-GBP" /\
  TradeRecord.trade_id eth_gbp_record = "THVRQM-33VKH-UCI7BS" /\
  py_index (str_split "-" "ETH-GBP") 1 = Ok (TradeRecord.fee_currency eth_gbp_record).
Proof.
  apply (@trade_history_filter kraken toy_lib "E" "TH-GBP" None None 1616663700
           history_exchange [("THVRQM-33VKH-UCI7BS", eth_gbp_record)]).
  - reflexivity.
  - left. reflexivity.
Defined.

Lemma trade_history_all_or_nothing_witness :
  exists ret,
    @trade_history_sync kraken toy_lib None None None 1616663700 history_exchange
      = Ok (RetValue ret) /\
    exists req trades,
      result (json (history_exchange req)) = Some trades /\
      (forall item, In item trades ->
         exists std,
           @exchange_symbol_to_std_symbol kraken
             (fst (@_convert_private_sym kraken (PyStr (PrivTrade.pair (snd item)))))
           = Ok std) /\
      NoDup (map fst ret) /\
      (forall tid, In tid (map fst ret) -> In tid (map fst trades)) /\
      (truthy_str None = false ->
         forall tid, In tid (map fst trades) -> In tid (map fst ret)).
Proof.
  eexists. split; [reflexivity|].
  apply (@trade_history_all_or_nothing kraken toy_lib None None None 1616663700
           history_exchange).
  reflexivity.
Defined.

Lemma ledger_sync_complete_witness :
  exists ret,
    @ledger_sync kraken toy_lib None None None None None 1616663700 ledger_exchange
      = Ok (RetValue ret) /\
    exists req ledgers,
      result (json (ledger_exchange req)) = Some ledgers /\
      (NoDup (map fst ledgers) ->
         map fst ret = map fst ledgers /\
         map (fun entry => LedgerRecord.raw (snd entry)) ret = map snd ledgers /\
         map (fun entry => LedgerRecord.ledger_id (snd entry)) ret = map fst ledgers).
Proof.
  eexists. split; [reflexivity|].
  apply (@ledger_sync_complete kraken toy_lib None None None None None 1616663700
           ledger_exchange).
  reflexivity.
Defined.

Lemma place_order_statuses_witness :
  @place_order_sync kraken toy_lib toy_orders "BTC-USD" BUY "limit"
    {| coeff := 15; expo := -1 |} (Some {| coeff := 30000; expo := 0 |}) None
    1616663700 txid_exchange
  = Ok (PlacedMany ["OUF4EM-FRGI2-MQMWZD"; "OB5VMB-B4U2U-DK2WRW"]).
Proof.
  assert (Hkey : exists key, @b64decode toy_lib (@key_secret kraken) = Ok key)
    by (eexists; reflexivity).
  assert (Hx : forall req, clean_reply (txid_exchange req) /\
                           result (json (txid_exchange req))
                           = Some ["OUF4EM-FRGI2-MQMWZD"; "OB5VMB-B4U2U-DK2WRW"])
    by (intros req; repeat split).
  destruct (@place_order_statuses kraken toy_lib toy_orders "BTC-USD" BUY "limit"
              {| coeff := 15; expo := -1 |} (Some {| coeff := 30000; expo := 0 |}) None
              1616663700 txid_exchange _
              ["OUF4EM-FRGI2-MQMWZD"; "OB5VMB-B4U2U-DK2WRW"] eq_refl Hkey Hx)
    as (_ & Hmany & _).
  rewrite Hmany; [reflexivity | discriminate].
Defined.

Lemma order_request_payload_witness :
  exists parameters req,
    @order_parameters kraken toy_orders "BTC-USD" SELL "market"
      {| coeff := 15; expo := -1 |} (Some {| coeff := 0; expo := 0 |}) (Some ["post"])
      = Ok parameters /\
    @private_request kraken toy_lib "/private/AddOrder" (Some parameters) 1616663700 = Ok req /\
    map fst (req_data req)
      = ["pair"; "type"; "volume"; "ordertype"; "price"; "oflags"; "nonce"] /\
    dict_get String.eqb "type" (req_data req) = Some (PStr "sell").
Proof.
  eexists. eexists. split; [reflexivity|]. split; [reflexivity|].
  destruct (@order_request_payload kraken toy_lib toy_orders "BTC-USD" SELL "market"
              {| coeff := 15; expo := -1 |} (Some {| coeff := 0; expo := 0 |}) (Some ["post"])
              1616663700 _ _ eq_refl eq_refl) as (Hkeys & Htype & _).
  split; [exact Hkeys | exact Htype].
Defined.

Lemma place_and_cancel_envelopes_witness :
  @place_order_sync kraken toy_lib toy_orders "BTC-USD" BUY "limit"
    {| coeff := 15; expo := -1 |} None None 1616663700 (@error_exchange _)
    = Ok (PlacedEnvelope {| error := Some ["EGeneral:Invalid arguments"]; result := None |}) /\
  @cancel_order_sync kraken toy_lib toy_orders _ "OB5VMB-B4U2U-DK2WRW" 1616663700
    (@empty_exchange Order.t)
    = Ok (RetValue "OB5VMB-B4U2U-DK2WRW").
Proof.
  assert (Hkey : exists key, @b64decode toy_lib (@key_secret kraken) = Ok key)
    by (eexists; reflexivity).
  assert (Hp : forall req, error_reply (@error_exchange (list string) req))
    by (intros req; split; [reflexivity|]; eexists; eexists; reflexivity).
  assert (Hc : forall req, error_reply (@error_exchange (dict string Order.t) req))
    by (intros req; split; [reflexivity|]; eexists; eexists; reflexivity).
  assert (Hc' : forall req, clean_reply (@empty_exchange Order.t req))
    by (intros req; split; reflexivity).
  destruct (@place_and_cancel_envelopes kraken toy_lib toy_orders "BTC-USD" BUY "limit"
              {| coeff := 15; expo := -1 |} None None "OB5VMB-B4U2U-DK2WRW"
              1616663700 _ _ (@error_exchange _) (@error_exchange _)
              (@empty_exchange Order.t) eq_refl Hkey Hp Hc Hc')
    as ((rp & _ & Hplace) & _ & Hcancel).
  split; [exact Hplace|]. rewrite Hcancel. reflexivity.
Defined.
